(** * DemoExpress: the student-record backend (backend/index.js)

    A shallow embedding of the Express handlers of [backend/index.js] and
    of the two store helpers [loadStudents] and [saveStudents], with the
    properties of the service stated and proved over it.

    Layout:
    - [JS]: the JavaScript values the handlers compute with (truthiness,
      property access through the prototype chain, the string methods
      used by the filter, JSON serialisation);
    - [Eff]: the effects of a handler (file system, console, clock) as a
      state-and-exception monad over an explicit [world];
    - [Server]: [loadStudents], [saveStudents] and the three routes;
    - the theorems. *)

From Stdlib Require Import String Ascii List ZArith NArith Bool Lia.
Import ListNotations.
Local Open Scope string_scope.
Local Open Scope list_scope.

(** ** JavaScript values *)

Module JS.

(** The numbers that are not integers: a finite fraction [num/den], the
    two infinities ([JSON.parse] reads [1e400] as [Infinity]) and [NaN]. *)
Inductive other_number : Type :=
| Fraction (num : Z) (den : positive)
| Infinity (negative : bool)
| NaN.

(** Data values.  [VNum] holds the integers (the [Date.now()] time stamps
    among them, and zero, with which [-0] is identified), [VOther] the
    other numbers.  An object is the list of its own properties in
    insertion order (keys are distinct). *)
#[warnings="-register-all"]
Inductive value : Type :=
| VUndefined
| VNull
| VBool (b : bool)
| VNum (n : Z)
| VOther (x : other_number)
| VStr (s : string)
| VArr (elems : list value)
| VObj (props : list (string * value)).

(** What a property access [o[k]] evaluates to: a data value, or a
    built-in member found on the prototype chain (a method such as
    [Object.prototype.toString], or a prototype object for [__proto__]). *)
Inductive property : Type :=
| Data (v : value)
| Builtin (name : string).

(** Exceptions. *)
Inductive exn : Type :=
| TypeError (msg : string)
| SyntaxError (msg : string)
| SystemError (code : string).

(** The outcome of evaluating an expression. *)
Inductive outcome (A : Type) : Type :=
| Return (a : A)
| Throw (e : exn).
Arguments Return {A} a.
Arguments Throw {A} e.

Definition obind {A B} (m : outcome A) (f : A -> outcome B) : outcome B :=
  match m with
  | Return a => f a
  | Throw e => Throw e
  end.

(** Truthiness ([ToBoolean]). *)
Definition truthy (v : value) : bool :=
  match v with
  | VUndefined | VNull => false
  | VBool b => b
  | VNum n => negb (n =? 0)%Z
  | VOther (Fraction num _) => negb (num =? 0)%Z
  | VOther (Infinity _) => true
  | VOther NaN => false
  | VStr s => negb (s =? "")
  | VArr _ | VObj _ => true
  end.

Definition truthy_property (p : property) : bool :=
  match p with
  | Data v => truthy v
  | Builtin _ => true
  end.

(** A query-string parameter is absent ([undefined]) or a string. *)
Definition truthy_param (p : option string) : bool :=
  match p with
  | None => false
  | Some s => negb (s =? "")
  end.

(** *** Property access *)

(** Own property of an object. *)
Fixpoint own (k : string) (props : list (string * value)) : option value :=
  match props with
  | [] => None
  | (k', v) :: rest => if k' =? k then Some v else own k rest
  end.

(** String-keyed members of the built-in prototypes. *)
Definition Object_prototype : list string :=
  [ "constructor"; "hasOwnProperty"; "isPrototypeOf"; "propertyIsEnumerable";
    "toLocaleString"; "toString"; "valueOf"; "__proto__";
    "__defineGetter__"; "__defineSetter__"; "__lookupGetter__";
    "__lookupSetter__" ].

Definition Array_prototype : list string :=
  [ "at"; "concat"; "copyWithin"; "entries"; "every"; "fill"; "filter";
    "find"; "findIndex"; "findLast"; "findLastIndex"; "flat"; "flatMap";
    "forEach"; "includes"; "indexOf"; "join"; "keys"; "lastIndexOf"; "map";
    "pop"; "push"; "reduce"; "reduceRight"; "reverse"; "shift"; "slice";
    "some"; "sort"; "splice"; "toReversed"; "toSorted"; "toSpliced";
    "unshift"; "values"; "with" ].

Definition String_prototype : list string :=
  [ "anchor"; "at"; "big"; "blink"; "bold"; "charAt"; "charCodeAt";
    "codePointAt"; "concat"; "endsWith"; "fixed"; "fontcolor"; "fontsize";
    "includes"; "indexOf"; "isWellFormed"; "italics"; "lastIndexOf"; "link";
    "localeCompare"; "match"; "matchAll"; "normalize"; "padEnd"; "padStart";
    "repeat"; "replace"; "replaceAll"; "search"; "slice"; "small"; "split";
    "startsWith"; "strike"; "sub"; "substr"; "substring"; "sup";
    "toLocaleLowerCase"; "toLocaleUpperCase"; "toLowerCase"; "toUpperCase";
    "toWellFormed"; "trim"; "trimEnd"; "trimLeft"; "trimRight"; "trimStart" ].

Definition Number_prototype : list string :=
  [ "toExponential"; "toFixed"; "toPrecision" ].

Definition mem (k : string) (l : list string) : bool :=
  existsb (String.eqb k) l.

(** Lookup of [k] along a prototype chain. *)
Definition inherited (chain : list string) (k : string) : property :=
  if mem k chain then Builtin k else Data VUndefined.

(** Canonical array index: decimal digits, no leading zero. *)
Definition digit (c : ascii) : option N :=
  let n := N_of_ascii c in
  if ((48 <=? n) && (n <=? 57))%N then Some (n - 48)%N else None.

Fixpoint digits (s : string) (acc : N) : option N :=
  match s with
  | EmptyString => Some acc
  | String c rest =>
      match digit c with
      | Some d => digits rest (10 * acc + d)%N
      | None => None
      end
  end.

Definition array_index (k : string) : option N :=
  match k with
  | EmptyString => None
  | String c rest =>
      if (c =? "0")%char then
        match rest with EmptyString => Some 0%N | _ => None end
      else digits k 0
  end.

(** [o[k]]: reading a property of [undefined] or [null] throws; a
    primitive is read through its wrapper. *)
Definition get_prop (o : value) (k : string) : outcome property :=
  match o with
  | VUndefined =>
      Throw (TypeError "Cannot read properties of undefined")
  | VNull =>
      Throw (TypeError "Cannot read properties of null")
  | VObj props =>
      Return (match own k props with
              | Some v => Data v
              | None => inherited Object_prototype k
              end)
  | VArr elems =>
      Return (if k =? "length" then Data (VNum (Z.of_nat (List.length elems)))
              else
                match array_index k with
                | Some i =>
                    match nth_error elems (N.to_nat i) with
                    | Some v => Data v
                    | None => Data VUndefined
                    end
                | None => inherited (Array_prototype ++ Object_prototype) k
                end)
  | VStr s =>
      Return (if k =? "length" then Data (VNum (Z.of_nat (String.length s)))
              else
                match array_index k with
                | Some i =>
                    match String.get (N.to_nat i) s with
                    | Some c => Data (VStr (String c EmptyString))
                    | None => Data VUndefined
                    end
                | None => inherited (String_prototype ++ Object_prototype) k
                end)
  | VNum _ | VOther _ =>
      Return (inherited (Number_prototype ++ Object_prototype) k)
  | VBool _ => Return (inherited Object_prototype k)
  end.

(** *** String methods *)

(** [s.includes(t)]: [t] occurs in [s] as a substring. *)
Fixpoint includes (s t : string) : bool :=
  String.prefix t s ||
  match s with
  | EmptyString => false
  | String _ rest => includes rest t
  end.

(** The method call [p.toLowerCase()], for the platform's case mapping
    [lower].  Only strings have the method: on any other value the member
    is [undefined] (or, for an object read from JSON, not a function) and
    the call throws. *)
Definition call_toLowerCase (lower : string -> string) (p : property)
  : outcome string :=
  match p with
  | Data (VStr s) => Return (lower s)
  | Data VUndefined =>
      Throw (TypeError "Cannot read properties of undefined")
  | Data VNull =>
      Throw (TypeError "Cannot read properties of null")
  | _ => Throw (TypeError "student[searchBy].toLowerCase is not a function")
  end.

(** ASCII case folding: what [toLowerCase] does on ASCII text. *)
Definition ascii_lower (c : ascii) : ascii :=
  let n := N_of_ascii c in
  if ((65 <=? n) && (n <=? 90))%N then ascii_of_N (n + 32) else c.

Fixpoint ascii_toLowerCase (s : string) : string :=
  match s with
  | EmptyString => EmptyString
  | String c rest => String (ascii_lower c) (ascii_toLowerCase rest)
  end.

(** *** Array methods *)

(** [arr.push(x)].  The receiver is mutated in place; the caller below
    holds the only reference, so the new array is returned instead. *)
Definition Array_push (arr x : value) : outcome value :=
  match arr with
  | VArr elems => Return (VArr (elems ++ [x]))
  | VUndefined => Throw (TypeError "Cannot read properties of undefined")
  | VNull => Throw (TypeError "Cannot read properties of null")
  | _ => Throw (TypeError "students.push is not a function")
  end.

(** The loop of [arr.filter(cb)]: elements in order, the first exception
    of the callback ends it. *)
Fixpoint filter_loop (cb : value -> outcome bool) (elems : list value)
  : outcome (list value) :=
  match elems with
  | [] => Return []
  | x :: rest =>
      obind (cb x) (fun keep =>
      obind (filter_loop cb rest) (fun kept =>
      Return (if keep then x :: kept else kept)))
  end.

Definition Array_filter (arr : value) (cb : value -> outcome bool)
  : outcome value :=
  match arr with
  | VArr elems => obind (filter_loop cb elems) (fun kept => Return (VArr kept))
  | VUndefined => Throw (TypeError "Cannot read properties of undefined")
  | VNull => Throw (TypeError "Cannot read properties of null")
  | _ => Throw (TypeError "students.filter is not a function")
  end.

(** *** JSON *)

(** [JSON.stringify] leaves out a property whose value is [undefined] and
    writes [null] for such an array element; it writes [null] for an
    infinity and for [NaN] wherever they stand. *)
Definition omitted (v : value) : bool :=
  match v with
  | VUndefined => true
  | _ => false
  end.

(** The value a JSON text written from [v] denotes. *)
Fixpoint jsonify (v : value) : value :=
  match v with
  | VArr elems =>
      VArr (map (fun x => if omitted x then VNull else jsonify x) elems)
  | VObj props =>
      VObj ((fix go (ps : list (string * value)) : list (string * value) :=
               match ps with
               | [] => []
               | (k, x) :: rest =>
                   if omitted x then go rest else (k, jsonify x) :: go rest
               end) props)
  | VOther (Infinity _) | VOther NaN => VNull
  | _ => v
  end.

(** [jsonify] on the elements of an array and on the properties of an
    object. *)
Definition json_elem (x : value) : value :=
  if omitted x then VNull else jsonify x.

Fixpoint json_props (ps : list (string * value)) : list (string * value) :=
  match ps with
  | [] => []
  | (k, x) :: rest =>
      if omitted x then json_props rest else (k, jsonify x) :: json_props rest
  end.

(** The text of a file or of a message, up to what [JSON.parse] makes of
    it: the empty string, a text that [JSON.parse] rejects, or a JSON text
    together with the value it denotes.  The text [JSON.stringify] writes
    from [v] denotes [jsonify v]: the platform's codec is taken to read
    back what it wrote. *)
Inductive text : Type :=
| Blank
| Malformed
| Json (v : value).

(** [dataJSON === ""]. *)
Definition is_empty_string (t : text) : bool :=
  match t with
  | Blank => true
  | _ => false
  end.

Definition JSON_parse (t : text) : outcome value :=
  match t with
  | Json v => Return v
  | Blank | Malformed => Throw (SyntaxError "Unexpected end of JSON input")
  end.

(** [JSON.stringify(v, null, 2)]: [undefined] for [undefined], otherwise
    a JSON text. *)
Definition JSON_stringify (v : value) : option text :=
  if omitted v then None else Some (Json (jsonify v)).

End JS.

(** ** Effects *)

Module Eff.
Import JS.

(** The database file [DB_FILE]: absent, or present with some text; and
    whether the process may read and write it. *)
Record filesystem : Type := {
  db_file : option text;
  readable : bool;
  writable : bool
}.

(** Calls of the [fs] module, in the order they are made. *)
Inductive fs_call : Type :=
| ExistsSync
| ReadFileSync
| WriteFileSync (data : option text).

Inductive log_line : Type :=
| ConsoleError (msg : string) (e : exn)
| ConsoleLog (msg : string) (v : value).

Record world : Type := {
  fs : filesystem;
  clock : Z;                   (* what Date.now() reads, in milliseconds *)
  console : list log_line;
  calls : list fs_call
}.

Definition with_file (t : text) (d : filesystem) : filesystem :=
  {| db_file := Some t; readable := readable d; writable := writable d |}.

Definition with_fs (d : filesystem) (w : world) : world :=
  {| fs := d; clock := clock w; console := console w; calls := calls w |}.

Definition with_call (c : fs_call) (w : world) : world :=
  {| fs := fs w; clock := clock w; console := console w;
     calls := calls w ++ [c] |}.

Definition with_line (l : log_line) (w : world) : world :=
  {| fs := fs w; clock := clock w; console := console w ++ [l];
     calls := calls w |}.

(** A computation: it runs in a world, returns or throws, and leaves a
    world behind. *)
Definition M (A : Type) : Type := world -> outcome A * world.

Definition ret {A} (a : A) : M A := fun w => (Return a, w).

Definition throw {A} (e : exn) : M A := fun w => (Throw e, w).

Definition bind {A B} (m : M A) (f : A -> M B) : M B :=
  fun w =>
    match m w with
    | (Return a, w') => f a w'
    | (Throw e, w') => (Throw e, w')
    end.

(** [try { m } catch (e) { handler e }]. *)
Definition try_catch {A} (m : M A) (handler : exn -> M A) : M A :=
  fun w =>
    match m w with
    | (Return a, w') => (Return a, w')
    | (Throw e, w') => handler e w'
    end.

(** An expression without effects. *)
Definition pure {A} (o : outcome A) : M A := fun w => (o, w).

Declare Scope eff_scope.
Delimit Scope eff_scope with eff.
Notation "x <- m ;; k" := (bind m (fun x => k))
  (at level 61, m at next level, right associativity) : eff_scope.
Notation "m ;; k" := (bind m (fun _ => k))
  (at level 61, right associativity) : eff_scope.

Definition fs_existsSync : M bool :=
  fun w => (Return (match db_file (fs w) with Some _ => true | None => false end),
            with_call ExistsSync w).

Definition fs_readFileSync : M text :=
  fun w =>
    let w' := with_call ReadFileSync w in
    match db_file (fs w) with
    | None => (Throw (SystemError "ENOENT"), w')
    | Some t =>
        if readable (fs w) then (Return t, w')
        else (Throw (SystemError "EACCES"), w')
    end.

Definition fs_writeFileSync (data : option text) : M unit :=
  fun w =>
    let w' := with_call (WriteFileSync data) w in
    match data with
    | None => (Throw (TypeError "ERR_INVALID_ARG_TYPE"), w')
    | Some t =>
        if writable (fs w) then (Return tt, with_fs (with_file t (fs w)) w')
        else (Throw (SystemError "EACCES"), w')
    end.

Definition console_error (msg : string) (e : exn) : M unit :=
  fun w => (Return tt, with_line (ConsoleError msg e) w).

Definition console_log (msg : string) (v : value) : M unit :=
  fun w => (Return tt, with_line (ConsoleLog msg v) w).

Definition Date_now : M Z := fun w => (Return (clock w), w).

End Eff.

(** ** The server *)

Module Server.
Import JS Eff.
Local Open Scope eff_scope.

(** What a handler sends: [res.send(text)] or [res.json(value)], with the
    status set by [res.status] (200 when it is not called).  [payload]
    holds the value handed to [res.json]; [wire] is what goes out. *)
Inductive body : Type :=
| Send (s : string)
| SendJson (v : value).

Record response : Type := {
  status : nat;
  payload : body
}.

Definition res_send (s : string) : response :=
  {| status := 200; payload := Send s |}.

Definition res_json (code : nat) (v : value) : response :=
  {| status := code; payload := SendJson v |}.

Definition wire (r : response) : option text :=
  match payload r with
  | Send _ => None
  | SendJson v => JSON_stringify v
  end.

(** *** Helper functions for the JSON database *)

Definition loadStudents : M value :=
  try_catch
    (file_exists <- fs_existsSync ;;
     if file_exists then
       dataJSON <- fs_readFileSync ;;
       if is_empty_string dataJSON then ret (VArr [])
       else pure (JSON_parse dataJSON)
     else ret (VArr []))
    (fun e =>
       console_error "Error reading from database:" e ;;
       ret (VArr [])).

Definition saveStudents (students : value) : M unit :=
  try_catch
    (let dataJSON := JSON_stringify students in
     fs_writeFileSync dataJSON)
    (fun e => console_error "Error writing to database:" e).

(** *** API endpoints *)

Section Routes.

(** The platform's [String.prototype.toLowerCase]. *)
Variable toLowerCase : string -> string.

(** [GET /] *)
Definition get_root : M response :=
  ret (res_send "Student Info Backend Running").

(** The callback of [students.filter]. *)
Definition matches (searchBy lowerQuery : string) (student : value)
  : outcome bool :=
  obind (get_prop student searchBy) (fun field =>
  if truthy_property field then
    obind (call_toLowerCase toLowerCase field) (fun lowered =>
    Return (includes lowered lowerQuery))
  else Return false).

(** A query parameter used as a property key ([ToPropertyKey]) and as
    the receiver of [toLowerCase]. *)
Definition property_key (p : option string) : string :=
  match p with
  | Some s => s
  | None => "undefined"
  end.

Definition param_toLowerCase (p : option string) : outcome string :=
  match p with
  | Some s => Return (toLowerCase s)
  | None => Throw (TypeError "Cannot read properties of undefined")
  end.

(** [GET /students]; [searchBy] and [query] are [req.query]'s. *)
Definition get_students (searchBy query : option string) : M response :=
  students <- loadStudents ;;
  if negb (truthy_param searchBy) || negb (truthy_param query) then
    ret (res_json 200 (VObj [("students", students)]))
  else
    lowerQuery <- pure (param_toLowerCase query) ;;
    filteredStudents <-
      pure (Array_filter students
              (matches (property_key searchBy) lowerQuery)) ;;
    ret (res_json 200 (VObj [("students", filteredStudents)])).

(** Destructuring one name out of [req.body]. *)
Definition field (body : value) (k : string) : outcome value :=
  obind (get_prop body k) (fun p =>
  Return (match p with
          | Data v => v
          | Builtin _ => VUndefined   (* not reached: see [field_data] *)
          end)).

Definition missing_fields : string :=
  "Missing required fields: name, rollNo, universityId, year, department".

(** The object literal [newStudent]. *)
Definition newStudent (id : Z)
  (name rollNo universityId bloodGroup address year department : value)
  : value :=
  VObj [ ("id", VNum id);
         ("name", name);
         ("rollNo", rollNo);
         ("universityId", universityId);
         ("bloodGroup", bloodGroup);
         ("address", if truthy address then address else VStr "");
         ("year", year);
         ("department", department) ].

(** [POST /students]; [body] is [req.body]. *)
Definition post_students (body : value) : M response :=
  name <- pure (field body "name") ;;
  rollNo <- pure (field body "rollNo") ;;
  universityId <- pure (field body "universityId") ;;
  bloodGroup <- pure (field body "bloodGroup") ;;
  address <- pure (field body "address") ;;
  year <- pure (field body "year") ;;
  department <- pure (field body "department") ;;
  if negb (truthy name) || negb (truthy rollNo) || negb (truthy universityId)
     || negb (truthy year) || negb (truthy department) then
    ret (res_json 400 (VObj [("error", VStr missing_fields)]))
  else
    id <- Date_now ;;
    let newStudent' :=
      newStudent id name rollNo universityId bloodGroup address year
        department in
    students <- loadStudents ;;
    students' <- pure (Array_push students newStudent') ;;
    saveStudents students' ;;
    console_log "Added new student (and saved to students.json):" newStudent' ;;
    ret (res_json 201 (VObj [ ("message", VStr "Student added");
                              ("student", newStudent') ])).

(** [process.env.PORT || 5000]; the variable is unset or a text. *)
Definition PORT (env_PORT : option string) : value :=
  if truthy_param env_PORT then
    match env_PORT with
    | Some s => VStr s
    | None => VUndefined
    end
  else VNum 5000.

(** The callback of [app.listen]; the last line is logged with the port
    it interpolates. *)
Definition on_listen (port : value) : M unit :=
  file_exists <- fs_existsSync ;;
  (if negb file_exists then
     saveStudents (VArr []) ;;
     console_log "Created empty students.json database file." VUndefined
   else ret tt) ;;
  console_log "Server listening on http://localhost:" port.

End Routes.

End Server.

(** ** Vocabulary of the properties *)

Module Spec.
Import JS Eff Server.

(** The collection [loadStudents] finds in a file system. *)
Definition stored (d : filesystem) : value :=
  match db_file d with
  | None => VArr []
  | Some t =>
      if readable d then
        match t with
        | Json v => v
        | Blank | Malformed => VArr []
        end
      else VArr []
  end.

(** What [GET /students] answers, as a function of the stored value. *)
Definition answer (lower : string -> string) (students : value)
  (searchBy query : option string)
  : outcome response :=
  if negb (truthy_param searchBy) || negb (truthy_param query) then
    Return (res_json 200 (VObj [("students", students)]))
  else
    obind (param_toLowerCase lower query) (fun lowerQuery =>
    obind (Array_filter students (matches lower (property_key searchBy) lowerQuery))
      (fun filteredStudents =>
    Return (res_json 200 (VObj [("students", filteredStudents)])))).

(** The [fs] calls that only read. *)
Definition reads (c : fs_call) : Prop :=
  match c with
  | ExistsSync | ReadFileSync => True
  | WriteFileSync _ => False
  end.

(** The fields a creation request must supply, and the fields copied
    from the request as they are. *)
Definition required : list string :=
  [ "name"; "rollNo"; "universityId"; "year"; "department" ].


(** Field [k] of a request body is missing or falsy / present and truthy,
    as the handler's destructuring reads it. *)
Definition lacks (body : value) (k : string) : Prop :=
  exists v, field body k = Return v /\ truthy v = false.

Definition supplies (body : value) (k : string) : Prop :=
  exists v, field body k = Return v /\ truthy v = true.

(** The inclusion test of the filter in the words of the specification:
    the record has a non-empty text at [searchBy] which, lowercased,
    contains the lowercased query. *)
Definition field_matches (lower : string -> string) (searchBy query : string)
  (record : value) : bool :=
  match get_prop record searchBy with
  | Return (Data (VStr s)) =>
      negb (s =? "") && includes (lower s) (lower query)
  | _ => false
  end.

(** The record's value at [searchBy] is a text or is falsy. *)
Definition text_or_falsy (searchBy : string) (record : value) : Prop :=
  exists p, get_prop record searchBy = Return p /\
            (truthy_property p = false \/ exists s, p = Data (VStr s)).

(** What the client receives as JSON. *)
Definition received (r : response) : option value :=
  match wire r with
  | Some (Json v) => Some v
  | _ => None
  end.

Definition appears_exactly_once (x : value) (l : list value) : Prop :=
  exists before after,
    l = before ++ x :: after /\ ~ In x before /\ ~ In x after.

(** [GET /students] is answered with status 200 and the client receives
    the collection [l]. *)
Definition lists (answered : outcome response) (l : list value) : Prop :=
  exists r,
    answered = Return r /\ status r = 200 /\
    received r = Some (VObj [("students", VArr l)]).

(** The answer to a successful creation. *)
Definition created (student : value) : response :=
  res_json 201 (VObj [ ("message", VStr "Student added");
                       ("student", student) ]).

(** The record has a time stamp as [id]. *)
Definition stamped (record : value) : Prop :=
  exists n, get_prop record "id" = Return (Data (VNum n)) /\ n <> 0%Z.

(** Example data. *)
Definition record (id : Z) (name rollNo universityId bloodGroup address year
                            department : string) : value :=
  VObj [ ("id", VNum id); ("name", VStr name); ("rollNo", VStr rollNo);
         ("universityId", VStr universityId); ("bloodGroup", VStr bloodGroup);
         ("address", VStr address); ("year", VStr year);
         ("department", VStr department) ].

Definition alice : value :=
  record 1700000000000 "Alice" "21" "U-1001" "A+" "12 Hill Road" "2" "CS".

Definition bob : value :=
  record 1700000000500 "bob" "22" "U-1002" "O-" "" "3" "ECE".

Definition alice_form : value :=
  VObj [ ("name", VStr "Alice"); ("rollNo", VStr "21");
         ("universityId", VStr "U-1001"); ("bloodGroup", VStr "A+");
         ("address", VStr "12 Hill Road"); ("year", VStr "2");
         ("department", VStr "CS") ].

Definition carol_form : value :=
  VObj [ ("name", VStr "Carol"); ("rollNo", VStr "23");
         ("universityId", VStr "U-1003"); ("year", VStr "1");
         ("department", VStr "ME") ].

Definition unnamed_form : value :=
  VObj [ ("name", VStr ""); ("rollNo", VStr "24");
         ("universityId", VStr "U-1004"); ("year", VStr "1");
         ("department", VStr "ME") ].

Definition world_of (file : option text) (can_read can_write : bool) (t : Z)
  : world :=
  {| fs := {| db_file := file; readable := can_read; writable := can_write |};
     clock := t; console := []; calls := [] |}.

Definition two_students : world :=
  world_of (Some (Json (VArr [alice; bob]))) true true 1700000001000.

Definition read_only_store : world :=
  world_of (Some (Json (VArr [alice; bob]))) true false 1700000001000.

Definition corrupt_store : world :=
  world_of (Some Malformed) true true 1700000001000.

Definition object_store : world :=
  world_of (Some (Json (VObj [("students", VArr [alice])]))) true true
    1700000001000.

Definition alice_store : world :=
  world_of (Some (Json (VArr [alice]))) true true 1700000000000.

End Spec.

(** ** Vocabulary of the further properties *)

Module Notions.
Import JS Eff Server Spec.

(** Field [k] of the record holds a value that is truthy and is still
    truthy once written as JSON: truthy, and not an infinity. *)
Definition keeps (record : value) (k : string) : Prop :=
  exists v, field record k = Return v /\ truthy (jsonify v) = true.

(** The record keeps a truthy value at every required field. *)
Definition complete (record : value) : Prop :=
  Forall (keeps record) required.

(** No required field of the body is an infinity. *)
Definition finite_fields (body : value) : Prop :=
  forall k negative,
    In k required -> field body k <> Return (VOther (Infinity negative)).

(** The file system shows [loadStudents] a collection of complete
    records. *)
Definition holds_complete_records (d : filesystem) : Prop :=
  exists records, stored d = VArr records /\ Forall complete records.

(** The world at another time of day. *)
Definition at_time (t : Z) (w : world) : world :=
  {| fs := fs w; clock := t; console := console w; calls := calls w |}.

(** What destructuring gives for a name, [undefined] when it throws. *)
Definition read (body : value) (k : string) : value :=
  match field body k with
  | Return v => v
  | Throw _ => VUndefined
  end.

(** The record [POST /students] builds from [body] at time [t], and what
    the client and the file get of it. *)
Definition built (t : Z) (body : value) : value :=
  newStudent t (read body "name") (read body "rollNo")
    (read body "universityId") (read body "bloodGroup") (read body "address")
    (read body "year") (read body "department").

Definition sent (request : Z * value) : value :=
  jsonify (built (fst request) (snd request)).

(** Creation requests handled one after the other, each with its body
    and the time it is handled at. *)
Fixpoint post_all (requests : list (Z * value)) (w : world) : world :=
  match requests with
  | [] => w
  | (t, body) :: rest =>
      post_all rest (snd (post_students body (at_time t w)))
  end.

(** The record is an object without an own property [k]. *)
Definition object_without (k : string) (record : value) : Prop :=
  exists props, record = VObj props /\ own k props = None.

(** The search is on: both parameters are non-empty texts. *)
Definition searching (searchBy query : string) : Prop :=
  searchBy <> "" /\ query <> "".

Definition missing_store : world := world_of None true true 1700000001000.

Definition locked_missing_store : world :=
  world_of None true false 1700000001000.

Definition unreadable_store : world :=
  world_of (Some (Json (VArr [alice; bob]))) false true 1700000001000.

(** A form whose year was sent as [1e400]. *)
Definition endless_year_form : value :=
  VObj [ ("name", VStr "Erin"); ("rollNo", VStr "26");
         ("universityId", VStr "U-1006");
         ("year", VOther (Infinity false)); ("department", VStr "CE") ].

Definition dave_form : value :=
  VObj [ ("name", VStr "Dave"); ("rollNo", VStr "25");
         ("universityId", VStr "U-1005"); ("bloodGroup", VStr "B+");
         ("address", VStr "4 Mill Lane"); ("year", VStr "4");
         ("department", VStr "EE") ].

End Notions.

(** ** Facts about the value model *)

Module JSFacts.
Import JS.

(** Induction on values, through arrays and objects. *)
Lemma value_induction_Forall (P : value -> Prop) :
  P VUndefined -> P VNull ->
  (forall b, P (VBool b)) -> (forall n, P (VNum n)) ->
  (forall x, P (VOther x)) -> (forall s, P (VStr s)) ->
  (forall elems, Forall P elems -> P (VArr elems)) ->
  (forall props, Forall (fun kx => P (snd kx)) props -> P (VObj props)) ->
  forall v, P v.
Proof.
  intros Hu Hn Hb Hz Hx Hs Ha Ho.
  refine (fix IH (v : value) : P v :=
            match v with
            | VUndefined => Hu
            | VNull => Hn
            | VBool b => Hb b
            | VNum n => Hz n
            | VOther x => Hx x
            | VStr s => Hs s
            | VArr elems =>
                Ha elems
                   ((fix all (l : list value) : Forall P l :=
                       match l with
                       | [] => Forall_nil P
                       | x :: rest => Forall_cons x (IH x) (all rest)
                       end) elems)
            | VObj props =>
                Ho props
                   ((fix all (l : list (string * value))
                       : Forall (fun kx => P (snd kx)) l :=
                       match l with
                       | [] => Forall_nil _
                       | kx :: rest => Forall_cons kx (IH (snd kx)) (all rest)
                       end) props)
            end).
Qed.

Lemma value_induction (P : value -> Prop) :
  P VUndefined -> P VNull ->
  (forall b, P (VBool b)) -> (forall n, P (VNum n)) ->
  (forall x, P (VOther x)) -> (forall s, P (VStr s)) ->
  (forall elems, (forall x, In x elems -> P x) -> P (VArr elems)) ->
  (forall props, (forall k x, In (k, x) props -> P x) -> P (VObj props)) ->
  forall v, P v.
Proof.
  intros Hu Hn Hb Hz Hx Hs Ha Ho.
  apply value_induction_Forall; auto.
  - intros elems H. apply Ha. apply Forall_forall, H.
  - intros props H. apply Ho. intros k x Hin.
    rewrite Forall_forall in H. apply (H (k, x) Hin).
Qed.

Lemma jsonify_arr elems : jsonify (VArr elems) = VArr (map json_elem elems).
Proof. reflexivity. Qed.

Lemma jsonify_obj props : jsonify (VObj props) = VObj (json_props props).
Proof. reflexivity. Qed.

Lemma omitted_jsonify v : omitted (jsonify v) = omitted v.
Proof.
  destruct v as [ | | b | n | [ num den | negative | ] | s | elems | props ];
    reflexivity.
Qed.

(** Writing a value out and reading it back is stable after one trip. *)
Lemma jsonify_idempotent v : jsonify (jsonify v) = jsonify v.
Proof.
  induction v as [ | | b | n | x | s | elems IH | props IH ]
    using value_induction; try reflexivity.
  - destruct x; reflexivity.
  - rewrite !jsonify_arr. f_equal. rewrite map_map.
    apply map_ext_in. intros x Hx. unfold json_elem.
    destruct (omitted x) eqn:E; [ reflexivity | ].
    rewrite omitted_jsonify, E. apply IH, Hx.
  - rewrite !jsonify_obj. f_equal.
    induction props as [ | [k x] rest IHrest ]; simpl; [ reflexivity | ].
    destruct (omitted x) eqn:E.
    + apply IHrest. intros k' y Hy. apply (IH k' y). right. exact Hy.
    + simpl. rewrite omitted_jsonify, E. f_equal.
      * f_equal. apply (IH k x). left. reflexivity.
      * apply IHrest. intros k' y Hy. apply (IH k' y). right. exact Hy.
Qed.

Lemma json_elem_idempotent x : json_elem (json_elem x) = json_elem x.
Proof.
  unfold json_elem. destruct (omitted x) eqn:E; [ reflexivity | ].
  rewrite omitted_jsonify, E. apply jsonify_idempotent.
Qed.

(** [includes] is the substring relation. *)
Lemma prefix_append t s :
  String.prefix t s = true <-> exists b, s = (t ++ b)%string.
Proof.
  revert s. induction t as [ | c t IH ]; intros s.
  - split; [ intros _; exists s; reflexivity | intros _; destruct s; reflexivity ].
  - destruct s as [ | d s ]; simpl.
    + split; [ discriminate | intros [b Hb]; discriminate ].
    + destruct (ascii_dec c d) as [ -> | Hne ].
      * rewrite IH. split; intros [b Hb]; exists b.
        -- rewrite Hb. reflexivity.
        -- inversion Hb. reflexivity.
      * split; [ discriminate | intros [b Hb]; inversion Hb; subst; contradiction Hne; reflexivity ].
Qed.

Lemma includes_substring s t :
  includes s t = true <-> exists a b, s = (a ++ t ++ b)%string.
Proof.
  induction s as [ | c s IH ]; cbn [includes].
  - rewrite orb_false_r, prefix_append. split.
    + intros [b Hb]. exists "", b. exact Hb.
    + intros [a [b Hab]]. destruct a; simpl in Hab; [ exists b; exact Hab | discriminate ].
  - rewrite orb_true_iff, prefix_append, IH. split.
    + intros [ [b Hb] | [a [b Hab]] ].
      * exists "", b. exact Hb.
      * exists (String c a), b. simpl. rewrite Hab. reflexivity.
    + intros [a [b Hab]]. destruct a as [ | d a ]; simpl in Hab.
      * left. exists b. exact Hab.
      * right. inversion Hab. exists a, b. reflexivity.
Qed.

End JSFacts.

(** ** Facts about the store helpers *)

Module StoreFacts.
Import JS Eff Server Spec.

Ltac by_cases_on_file w :=
  destruct w as [ [ [ [ | | ? ] | ] [ | ] ? ] ? ? ? ]; cbn.

(** [loadStudents] returns, and what it returns is [stored]. *)
Lemma loadStudents_fst w : fst (loadStudents w) = Return (stored (fs w)).
Proof. by_cases_on_file w; reflexivity. Qed.

Lemma loadStudents_fs w : fs (snd (loadStudents w)) = fs w.
Proof. by_cases_on_file w; reflexivity. Qed.

Lemma loadStudents_clock w : clock (snd (loadStudents w)) = clock w.
Proof. by_cases_on_file w; reflexivity. Qed.

Lemma loadStudents_calls w :
  exists cs, calls (snd (loadStudents w)) = calls w ++ cs /\ Forall reads cs.
Proof.
  by_cases_on_file w;
    first [ exists [ExistsSync; ReadFileSync];
            solve [ split; [ rewrite <- ?app_assoc; reflexivity
                           | repeat constructor ] ]
          | exists [ExistsSync];
            solve [ split; [ reflexivity | repeat constructor ] ] ].
Qed.

Lemma loadStudents_eq w :
  loadStudents w = (Return (stored (fs w)), snd (loadStudents w)).
Proof.
  rewrite <- loadStudents_fst. destruct (loadStudents w); reflexivity.
Qed.

(** [saveStudents] returns normally whatever happens to the write. *)
Lemma saveStudents_fst students w : fst (saveStudents students w) = Return tt.
Proof.
  unfold saveStudents, try_catch, fs_writeFileSync.
  destruct (JSON_stringify students); [ destruct (writable (fs w)) | ];
    reflexivity.
Qed.


Lemma saveStudents_clock students w :
  clock (snd (saveStudents students w)) = clock w.
Proof.
  unfold saveStudents, try_catch, fs_writeFileSync.
  destruct (JSON_stringify students); [ destruct (writable (fs w)) | ];
    reflexivity.
Qed.

Lemma saveStudents_written elems w :
  writable (fs w) = true ->
  fs (snd (saveStudents (VArr elems) w)) =
  with_file (Json (VArr (map json_elem elems))) (fs w) /\
  console (snd (saveStudents (VArr elems) w)) = console w.
Proof.
  intros Hw. unfold saveStudents, try_catch, fs_writeFileSync. cbn.
  rewrite Hw. split; reflexivity.
Qed.

Lemma saveStudents_refused elems w :
  writable (fs w) = false ->
  fs (snd (saveStudents (VArr elems) w)) = fs w /\
  console (snd (saveStudents (VArr elems) w)) =
  console w ++ [ConsoleError "Error writing to database:" (SystemError "EACCES")].
Proof.
  intros Hw. unfold saveStudents, try_catch, fs_writeFileSync. cbn.
  rewrite Hw. split; reflexivity.
Qed.

(** Reading back what was written. *)
Lemma stored_with_file v d :
  readable d = true -> stored (with_file (Json v) d) = v.
Proof. intros Hr. unfold stored, with_file. cbn. rewrite Hr. reflexivity. Qed.

End StoreFacts.

(** ** Facts about the routes *)

Module RouteFacts.
Import JS Eff Server Spec JSFacts StoreFacts.

(** *** Destructuring the request body *)

Lemma field_returns body k :
  body <> VUndefined -> body <> VNull -> exists v, field body k = Return v.
Proof.
  intros Hu Hn. unfold field.
  destruct body; try contradiction; cbn [get_prop obind]; eauto.
Qed.

Lemma field_defined body k v :
  field body k = Return v -> body <> VUndefined /\ body <> VNull.
Proof. destruct body; cbn; intros H; split; discriminate. Qed.

(** Of the names the handler destructures, none is a built-in member:
    the default in [field] is never taken. *)
Lemma field_data body k name :
  In k [ "name"; "rollNo"; "universityId"; "bloodGroup"; "address"; "year";
         "department" ] ->
  get_prop body k <> Return (Builtin name).
Proof.
  intros Hk. cbn in Hk.
  destruct body as [ | | b | n | x | s | elems | props ]; cbn [get_prop];
    try discriminate;
    repeat (destruct Hk as [ <- | Hk ]; [ | ]); try destruct Hk;
    try (vm_compute; discriminate).
  all: try (destruct (own _ props); vm_compute; discriminate).
  all: try (destruct (String.get _ s); vm_compute; discriminate).
  all: try (destruct (nth_error elems _); vm_compute; discriminate).
Qed.

(** *** Listing and filtering *)

Section Listing.

Variable lower : string -> string.

Lemma get_students_eq searchBy query w :
  get_students lower searchBy query w =
  (answer lower (stored (fs w)) searchBy query, snd (loadStudents w)).
Proof.
  unfold get_students, bind, answer.
  rewrite (loadStudents_eq w) at 1.
  destruct (negb (truthy_param searchBy) || negb (truthy_param query));
    [ reflexivity | ].
  unfold pure.
  destruct (param_toLowerCase lower query) as [ lowerQuery | e ];
    [ | reflexivity ].
  cbn [obind].
  destruct (Array_filter _ _) as [ filteredStudents | e ]; reflexivity.
Qed.

(** On a record whose value at [searchBy] is a text or is falsy, the
    callback computes the inclusion test. *)
Lemma matches_text searchBy query record :
  text_or_falsy searchBy record ->
  matches lower searchBy (lower query) record =
  Return (field_matches lower searchBy query record).
Proof.
  intros [p [Hp Hcase]]. unfold matches, field_matches. rewrite Hp. cbn [obind].
  destruct Hcase as [ Hfalsy | [s ->] ].
  - rewrite Hfalsy. destruct p as [ [ | | b | n | x | s | elems | props ] | name ];
      try reflexivity; try discriminate.
    cbn in Hfalsy. apply negb_false_iff in Hfalsy. rewrite Hfalsy. reflexivity.
  - cbn. destruct (s =? ""); reflexivity.
Qed.

(** The inclusion test, spelled out: a non-empty text whose lowercase
    has the lowercased query as a substring. *)
Lemma field_matches_spec searchBy query record :
  field_matches lower searchBy query record = true <->
  exists s,
    get_prop record searchBy = Return (Data (VStr s)) /\ s <> "" /\
    exists a b, lower s = (a ++ lower query ++ b)%string.
Proof.
  unfold field_matches. split.
  - destruct (get_prop record searchBy)
      as [ [ [ | | b | n | x | s | elems | props ] | name ] | e ];
      try discriminate.
    intros H. apply andb_true_iff in H. destruct H as [Hne Hinc].
    exists s. split; [ reflexivity | ]. split.
    + apply String.eqb_neq, negb_true_iff, Hne.
    + apply includes_substring, Hinc.
  - intros [s [-> [Hne Hsub]]]. apply andb_true_iff. split.
    + apply negb_true_iff, String.eqb_neq, Hne.
    + apply includes_substring, Hsub.
Qed.

Lemma filter_loop_text searchBy query records :
  Forall (text_or_falsy searchBy) records ->
  filter_loop (matches lower searchBy (lower query)) records =
  Return (filter (field_matches lower searchBy query) records).
Proof.
  induction 1 as [ | record rest Hrecord Hrest IH ]; cbn [filter_loop filter].
  - reflexivity.
  - rewrite (matches_text _ _ _ Hrecord), IH. cbn [obind].
    destruct (field_matches lower searchBy query record); reflexivity.
Qed.

(** The filter on text fields: the answer holds exactly the records that
    pass the inclusion test, in stored order. *)
Lemma get_students_filter_text searchBy query records w :
  fst (loadStudents w) = Return (VArr records) ->
  searchBy <> "" -> query <> "" ->
  Forall (text_or_falsy searchBy) records ->
  fst (get_students lower (Some searchBy) (Some query) w) =
  Return (res_json 200
            (VObj [("students",
                    VArr (filter (field_matches lower searchBy query) records))])).
Proof.
  intros Hload Hs Hq Htext.
  rewrite loadStudents_fst in Hload. injection Hload as Hstored.
  rewrite get_students_eq. cbn [fst]. unfold answer. rewrite Hstored.
  apply String.eqb_neq in Hs, Hq. cbn [truthy_param]. rewrite Hs, Hq.
  cbn [negb orb param_toLowerCase obind property_key Array_filter].
  rewrite (filter_loop_text _ _ _ Htext). reflexivity.
Qed.

(** A record whose value at [searchBy] is truthy and not a text makes the
    callback throw. *)
Lemma matches_not_text searchBy lowerQuery record p :
  get_prop record searchBy = Return p ->
  truthy_property p = true ->
  (forall s, p <> Data (VStr s)) ->
  exists e, matches lower searchBy lowerQuery record = Throw e.
Proof.
  intros Hp Htruthy Hnot. unfold matches. rewrite Hp. cbn [obind].
  rewrite Htruthy.
  destruct p as [ [ | | b | n | x | s | elems | props ] | name ]; cbn; eauto.
  contradiction (Hnot s). reflexivity.
Qed.

End Listing.

(** *** Creating *)

(** A request that lacks a required field is turned away before anything
    else happens. *)
Lemma post_students_invalid body w :
  Exists (lacks body) required ->
  post_students body w =
  (Return (res_json 400 (VObj [("error", VStr missing_fields)])), w).
Proof.
  intros Hlacks.
  assert (Hdef : body <> VUndefined /\ body <> VNull).
  { apply Exists_exists in Hlacks. destruct Hlacks as [k [_ [v [Hv _]]]].
    exact (field_defined _ _ _ Hv). }
  destruct Hdef as [Hu Hn].
  destruct (field_returns body "name" Hu Hn) as [name Hname].
  destruct (field_returns body "rollNo" Hu Hn) as [rollNo HrollNo].
  destruct (field_returns body "universityId" Hu Hn) as [universityId Huid].
  destruct (field_returns body "bloodGroup" Hu Hn) as [bloodGroup Hblood].
  destruct (field_returns body "address" Hu Hn) as [address Haddress].
  destruct (field_returns body "year" Hu Hn) as [year Hyear].
  destruct (field_returns body "department" Hu Hn) as [department Hdept].
  unfold post_students, bind, pure.
  rewrite Hname, HrollNo, Huid, Hblood, Haddress, Hyear, Hdept.
  assert (Hcond : negb (truthy name) || negb (truthy rollNo)
                  || negb (truthy universityId) || negb (truthy year)
                  || negb (truthy department) = true).
  { unfold required in Hlacks.
    repeat match goal with
           | H : Exists _ (_ :: _) |- _ =>
               apply Exists_cons in H; destruct H as [ [v [Hv Hfalsy]] | H ]
           | H : Exists _ [] |- _ => apply Exists_nil in H; destruct H
           end;
      match goal with
      | Hv : field body ?k = Return ?x, Hk : field body ?k = Return ?y,
        Hx : truthy ?x = false |- _ =>
          rewrite Hv in Hk; injection Hk as <-; rewrite Hx
      end;
      cbn [negb orb]; rewrite ?orb_true_r; reflexivity. }
  rewrite Hcond. reflexivity.
Qed.

(** On an object body, a field is lacking when it is not an own property
    or its value is falsy, and supplied when its value is truthy. *)
Lemma field_own props k :
  In k [ "name"; "rollNo"; "universityId"; "bloodGroup"; "address"; "year";
         "department" ] ->
  field (VObj props) k =
  Return (match own k props with Some v => v | None => VUndefined end).
Proof.
  intros Hk. cbn in Hk. unfold field. cbn [get_prop obind].
  destruct (own k props) as [ v | ]; [ reflexivity | ].
  repeat (destruct Hk as [ <- | Hk ]; [ reflexivity | ]). destruct Hk.
Qed.

Lemma lacks_own props k :
  In k required ->
  lacks (VObj props) k <->
  own k props = None \/ exists v, own k props = Some v /\ truthy v = false.
Proof.
  intros Hk. unfold lacks. rewrite field_own.
  - destruct (own k props) as [ v | ]; split.
    + intros [x [Hx Hfalsy]]. injection Hx as <-. right. eauto.
    + intros [ H | [x [Hx Hfalsy]] ]; [ discriminate | ].
      injection Hx as <-. eauto.
    + intros _. left. reflexivity.
    + intros _. exists VUndefined. split; reflexivity.
  - cbn in Hk. cbn. intuition.
Qed.

Lemma supplies_own props k :
  In k required ->
  supplies (VObj props) k <-> exists v, own k props = Some v /\ truthy v = true.
Proof.
  intros Hk. unfold supplies. rewrite field_own.
  - destruct (own k props) as [ v | ]; split.
    + intros [x [Hx Htruthy]]. injection Hx as <-. eauto.
    + intros [x [Hx Htruthy]]. injection Hx as <-. eauto.
    + intros [x [Hx Htruthy]]. injection Hx as <-. discriminate.
    + intros [x [Hx _]]. discriminate.
  - cbn in Hk. cbn. intuition.
Qed.

(** The falsy values a field can hold. *)
Example falsy_values :
  truthy (VStr "") = false /\ truthy (VNum 0) = false /\
  truthy VNull = false /\ truthy VUndefined = false /\
  truthy (VBool false) = false.
Proof. repeat split. Qed.

(** A request that supplies every required field: the handler stamps the
    record, loads, pushes, saves, logs and answers. *)
Lemma post_students_run body w
  name rollNo universityId bloodGroup address year department :
  field body "name" = Return name ->
  field body "rollNo" = Return rollNo ->
  field body "universityId" = Return universityId ->
  field body "bloodGroup" = Return bloodGroup ->
  field body "address" = Return address ->
  field body "year" = Return year ->
  field body "department" = Return department ->
  truthy name = true -> truthy rollNo = true -> truthy universityId = true ->
  truthy year = true -> truthy department = true ->
  let student :=
    newStudent (clock w) name rollNo universityId bloodGroup address year
      department in
  post_students body w =
  match Array_push (stored (fs w)) student with
  | Return students' =>
      (Return (res_json 201 (VObj [ ("message", VStr "Student added");
                                    ("student", student) ])),
       with_line
         (ConsoleLog "Added new student (and saved to students.json):" student)
         (snd (saveStudents students' (snd (loadStudents w)))))
  | Throw e => (Throw e, snd (loadStudents w))
  end.
Proof.
  intros Hname HrollNo Huid Hblood Haddress Hyear Hdept
         Tname TrollNo Tuid Tyear Tdept student.
  unfold post_students, bind, pure.
  rewrite Hname, HrollNo, Huid, Hblood, Haddress, Hyear, Hdept.
  rewrite Tname, TrollNo, Tuid, Tyear, Tdept. cbn [negb orb].
  unfold Date_now. fold student.
  rewrite (loadStudents_eq w) at 1.
  destruct (Array_push (stored (fs w)) student) as [ students' | e ];
    [ | reflexivity ].
  pose proof (saveStudents_fst students' (snd (loadStudents w))) as Hsave.
  destruct (saveStudents students' (snd (loadStudents w))) as [saved w2].
  cbn [fst] in Hsave. subst saved. reflexivity.
Qed.

(** What a request that supplies the required fields destructures to. *)
Lemma supplies_all body :
  Forall (supplies body) required ->
  exists name rollNo universityId bloodGroup address year department,
    field body "name" = Return name /\
    field body "rollNo" = Return rollNo /\
    field body "universityId" = Return universityId /\
    field body "bloodGroup" = Return bloodGroup /\
    field body "address" = Return address /\
    field body "year" = Return year /\
    field body "department" = Return department /\
    truthy name = true /\ truthy rollNo = true /\
    truthy universityId = true /\ truthy year = true /\
    truthy department = true.
Proof.
  intros Hall. unfold required in Hall.
  repeat match goal with
         | H : Forall _ (_ :: _) |- _ =>
             let v := fresh "v" in
             let Hv := fresh "Hv" in
             let Tv := fresh "Tv" in
             apply Forall_cons_iff in H; destruct H as [ [v [Hv Tv]] H ]
         end.
  destruct (field_defined _ _ _ Hv) as [Hu Hn].
  destruct (field_returns body "bloodGroup" Hu Hn) as [bloodGroup Hblood].
  destruct (field_returns body "address" Hu Hn) as [address Haddress].
  exists v, v0, v1, bloodGroup, address, v2, v3. repeat split; assumption.
Qed.

(** Runs [post_students body w] on a body that supplies the required
    fields: leaves [Hrun], the outcome as a case on [students.push], with
    [student] the record built, and the facts about the body's fields. *)
Ltac run_post body w Hall :=
  destruct (supplies_all body Hall)
    as (name & rollNo & universityId & bloodGroup & address & year & department
        & Hname & HrollNo & Huid & Hblood & Haddress & Hyear & Hdept
        & Tname & TrollNo & Tuid & Tyear & Tdept);
  pose proof (post_students_run body w _ _ _ _ _ _ _
                Hname HrollNo Huid Hblood Haddress Hyear Hdept
                Tname TrollNo Tuid Tyear Tdept) as Hrun;
  cbv zeta in Hrun;
  set (student := newStudent (clock w) name rollNo universityId bloodGroup
                    address year department) in *.

End RouteFacts.

(** ** Properties of the service *)

Module Properties.
Import JS Eff Server Spec JSFacts StoreFacts RouteFacts.

(** *** Creation *)

(** When [req.body] can be destructured (it is not [undefined] nor
    [null]) and has one of [name], [rollNo], [universityId], [year],
    [department] missing or falsy, [POST /students] is answered with
    status 400 and the missing-fields error, and leaves the world as it
    was: no call of [fs] is made (neither load nor save runs), the file is
    unchanged, and [GET /students] answers afterwards what it answered
    before. *)
Theorem post_students_rejects body w :
  Exists (lacks body) required ->
  let (answered, w') := post_students body w in
  answered = Return (res_json 400 (VObj [("error", VStr missing_fields)])) /\
  calls w' = calls w /\
  fs w' = fs w /\
  forall lower searchBy query,
    fst (get_students lower searchBy query w') =
    fst (get_students lower searchBy query w).
Proof.
  intros Hlacks. rewrite (post_students_invalid body w Hlacks).
  repeat split; reflexivity.
Qed.

Lemma post_students_rejects_witness :
  Exists (lacks unnamed_form) required /\
  fst (post_students unnamed_form two_students) =
  Return (res_json 400 (VObj [("error", VStr missing_fields)])).
Proof.
  assert (H : Exists (lacks unnamed_form) required).
  { apply Exists_cons_hd. exists (VStr ""). split; reflexivity. }
  split; [ exact H | ].
  pose proof (post_students_rejects unnamed_form two_students H) as P.
  destruct (post_students unnamed_form two_students) as [answered w'].
  exact (proj1 P).
Defined.

(** C3.  The validation is not reached by every request that lacks the
    required fields: when no body was parsed ([req.body] is [undefined]),
    the destructuring ahead of the check throws a [TypeError] in place of
    the 400 answer (the world is left as it was), whereas the empty
    object, which lacks the same fields, is answered with status 400. *)
Theorem post_students_without_body_throws w :
  (exists msg,
      post_students VUndefined w = (Throw (TypeError msg), w)) /\
  post_students (VObj []) w =
  (Return (res_json 400 (VObj [("error", VStr missing_fields)])), w).
Proof.
  split; [ eexists; reflexivity | ].
  apply post_students_invalid.
  apply Exists_cons_hd. exists VUndefined. split; reflexivity.
Qed.


Lemma supplies_carol : Forall (supplies carol_form) required.
Proof.
  unfold required.
  repeat (apply Forall_cons; [ eexists; split; reflexivity | ]).
  apply Forall_nil.
Qed.


(** C6.  When the write fails, [POST /students] with a valid body is still
    answered with status 201: [saveStudents] logs the error and returns
    normally (it returns nothing, on success and on failure alike), and
    the file is left as it was. *)
Theorem post_students_write_failure body w records :
  Forall (supplies body) required ->
  fst (loadStudents w) = Return (VArr records) ->
  writable (fs w) = false ->
  exists student w',
    post_students body w =
    (Return (res_json 201 (VObj [ ("message", VStr "Student added");
                                  ("student", student) ])), w') /\
    fst (saveStudents (VArr (records ++ [student])) (snd (loadStudents w))) =
    Return tt /\
    In (ConsoleError "Error writing to database:" (SystemError "EACCES"))
       (console w') /\
    fs w' = fs w.
Proof.
  intros Hall Hload Hw.
  rewrite loadStudents_fst in Hload. injection Hload as Hstored.
  run_post body w Hall. rewrite Hstored in Hrun. cbn [Array_push] in Hrun.
  exists student. eexists. split; [ exact Hrun | ].
  split; [ apply saveStudents_fst | ].
  assert (Hw1 : writable (fs (snd (loadStudents w))) = false)
    by (rewrite loadStudents_fs; exact Hw).
  destruct (saveStudents_refused (records ++ [student]) _ Hw1) as [Hfs Hlog].
  cbn [console fs with_line]. rewrite Hfs, Hlog, loadStudents_fs.
  split; [ | reflexivity ].
  apply in_or_app. left. apply in_or_app. right. left. reflexivity.
Qed.

Lemma post_students_write_failure_witness :
  exists student w',
    post_students carol_form read_only_store =
    (Return (res_json 201 (VObj [ ("message", VStr "Student added");
                                  ("student", student) ])), w') /\
    fs w' = fs read_only_store.
Proof.
  destruct (post_students_write_failure carol_form read_only_store
              [alice; bob] supplies_carol eq_refl eq_refl)
    as (student & w' & Hrun & _ & _ & Hfs).
  exists student, w'. split; assumption.
Defined.

(** *** The store *)

(** C5.  [loadStudents] never throws.  When the file does not exist it
    returns the empty array and creates nothing; when the file is empty it
    returns the empty array; when [JSON.parse] rejects the content it logs
    the error and returns the empty array, and [GET /students] is then
    answered with status 200 and [{ students: [] }], whatever the
    parameters. *)
Theorem loadStudents_fails_open w :
  (exists students, fst (loadStudents w) = Return students) /\
  (db_file (fs w) = None ->
   fst (loadStudents w) = Return (VArr []) /\
   fs (snd (loadStudents w)) = fs w /\
   calls (snd (loadStudents w)) = calls w ++ [ExistsSync]) /\
  (db_file (fs w) = Some Blank ->
   fst (loadStudents w) = Return (VArr [])) /\
  (forall content e,
      db_file (fs w) = Some content -> readable (fs w) = true ->
      is_empty_string content = false -> JSON_parse content = Throw e ->
      fst (loadStudents w) = Return (VArr []) /\
      console (snd (loadStudents w)) =
      console w ++ [ConsoleError "Error reading from database:" e] /\
      forall lower searchBy query,
        fst (get_students lower searchBy query w) =
        Return (res_json 200 (VObj [("students", VArr [])]))).
Proof.
  split; [ exists (stored (fs w)); apply loadStudents_fst | ].
  split.
  { intros Hnone. destruct w as [ [file can_read can_write] t out made ].
    cbn in Hnone. subst file. repeat split; reflexivity. }
  split.
  { intros Hblank. destruct w as [ [file can_read can_write] t out made ].
    cbn in Hblank. subst file. destruct can_read; reflexivity. }
  intros content e Hfile Hread Hnonempty Hparse.
  destruct w as [ [file can_read can_write] t out made ].
  cbn in Hfile, Hread. subst file can_read.
  destruct content as [ | | v ]; try discriminate.
  cbn in Hparse. injection Hparse as <-.
  split; [ reflexivity | ]. split; [ reflexivity | ].
  intros lower searchBy query. rewrite get_students_eq. cbn [fst].
  unfold answer. cbn [stored fs db_file readable].
  destruct query as [ query | ];
    [ | rewrite orb_true_r; reflexivity ].
  destruct (negb (truthy_param searchBy) || negb (truthy_param (Some query)));
    reflexivity.
Qed.

Lemma loadStudents_fails_open_witness :
  fst (get_students ascii_toLowerCase (Some "name") (Some "ali") corrupt_store)
  = Return (res_json 200 (VObj [("students", VArr [])])) /\
  fst (loadStudents (world_of None true true 0)) = Return (VArr []) /\
  fst (loadStudents (world_of (Some Blank) true true 0)) = Return (VArr []).
Proof.
  split; [ | split ].
  - destruct (loadStudents_fails_open corrupt_store) as (_ & _ & _ & Hbad).
    destruct (Hbad Malformed (SyntaxError "Unexpected end of JSON input")
                eq_refl eq_refl eq_refl eq_refl) as (_ & _ & Hget).
    apply Hget.
  - destruct (loadStudents_fails_open (world_of None true true 0))
      as (_ & Hnone & _).
    apply (Hnone eq_refl).
  - destruct (loadStudents_fails_open (world_of (Some Blank) true true 0))
      as (_ & _ & Hblank & _).
    apply (Hblank eq_refl).
Defined.

(** C9.  The fail-open policy covers thrown errors only.  When the file
    holds a JSON text, [loadStudents] returns the value it denotes as it
    is; when that value is not an array, a [POST /students] with a valid
    body throws at [students.push], so it is not answered with status 201
    and nothing is written: it does not append to an empty collection. *)
Theorem loadStudents_keeps_non_array w stored_value :
  db_file (fs w) = Some (Json stored_value) ->
  readable (fs w) = true ->
  fst (loadStudents w) = Return stored_value /\
  ((forall elems, stored_value <> VArr elems) ->
   forall body,
     Forall (supplies body) required ->
     exists e w',
       post_students body w = (Throw e, w') /\
       fs w' = fs w /\
       exists cs, calls w' = calls w ++ cs /\ Forall reads cs).
Proof.
  intros Hfile Hread.
  assert (Hstored : stored (fs w) = stored_value).
  { unfold stored. rewrite Hfile, Hread. reflexivity. }
  split; [ rewrite loadStudents_fst, Hstored; reflexivity | ].
  intros Hnot body Hall.
  run_post body w Hall. rewrite Hstored in Hrun.
  destruct stored_value as [ | | b | n | x | s | elems | props ];
    try (contradiction (Hnot elems); reflexivity);
    cbn [Array_push] in Hrun;
    (eexists; eexists; split; [ exact Hrun | ];
     split; [ apply loadStudents_fs | apply loadStudents_calls ]).
Qed.

Lemma loadStudents_keeps_non_array_witness :
  fst (loadStudents object_store) =
  Return (VObj [("students", VArr [alice])]) /\
  exists e w', post_students carol_form object_store = (Throw e, w').
Proof.
  destruct (loadStudents_keeps_non_array object_store
              (VObj [("students", VArr [alice])]) eq_refl eq_refl)
    as [Hload Hpost].
  split; [ exact Hload | ].
  destruct (Hpost (fun elems H => ltac:(discriminate H)) carol_form
              supplies_carol)
    as (e & w' & Hrun & _).
  exists e, w'. exact Hrun.
Defined.

(** *** Reading *)

(** C10.  The read routes leave the store alone: after [GET /] and after
    [GET /students], with any parameters, the file system is what it was,
    and the only [fs] calls made are reads ([GET /] makes none). *)
Theorem read_routes_preserve_store lower searchBy query w :
  fs (snd (get_root w)) = fs w /\
  calls (snd (get_root w)) = calls w /\
  fs (snd (get_students lower searchBy query w)) = fs w /\
  exists cs,
    calls (snd (get_students lower searchBy query w)) = calls w ++ cs /\
    Forall reads cs.
Proof.
  split; [ reflexivity | ]. split; [ reflexivity | ].
  rewrite get_students_eq. cbn [snd].
  split; [ apply loadStudents_fs | apply loadStudents_calls ].
Qed.

(** C8.  Reading is idempotent and depends on the file system only: a
    second [GET /students] with the same parameters, run in the world the
    first one left, gives the same outcome, and so do two worlds with the
    same file system. *)
Theorem get_students_idempotent lower searchBy query w :
  fst (get_students lower searchBy query
         (snd (get_students lower searchBy query w))) =
  fst (get_students lower searchBy query w) /\
  forall w', fs w' = fs w ->
             fst (get_students lower searchBy query w') =
             fst (get_students lower searchBy query w).
Proof.
  split.
  - rewrite !get_students_eq. cbn [fst snd]. rewrite loadStudents_fs.
    reflexivity.
  - intros w' Hfs. rewrite !get_students_eq. cbn [fst]. rewrite Hfs.
    reflexivity.
Qed.

Lemma get_students_idempotent_witness :
  fst (get_students ascii_toLowerCase (Some "name") (Some "ali")
         (snd (post_students unnamed_form two_students))) =
  fst (get_students ascii_toLowerCase (Some "name") (Some "ali") two_students).
Proof.
  apply (proj2 (get_students_idempotent ascii_toLowerCase (Some "name")
                  (Some "ali") two_students)).
  reflexivity.
Defined.

(** Without a search, the answer is the stored value as it is. *)
Lemma get_students_unfiltered lower searchBy query w :
  truthy_param searchBy = false \/ truthy_param query = false ->
  fst (get_students lower searchBy query w) =
  Return (res_json 200 (VObj [("students", stored (fs w))])).
Proof.
  intros Hfalsy. rewrite get_students_eq. cbn [fst]. unfold answer.
  destruct Hfalsy as [ -> | -> ]; [ | rewrite orb_true_r ]; reflexivity.
Qed.

(** The example of the specification: of Alice and bob, a search for
    "ali" in [name] finds Alice, and a search in a field no record has
    finds nobody. *)
Example get_students_by_name :
  fst (get_students ascii_toLowerCase (Some "name") (Some "ali") two_students)
  = Return (res_json 200 (VObj [("students", VArr [alice])])) /\
  fst (get_students ascii_toLowerCase (Some "dept") (Some "math") two_students)
  = Return (res_json 200 (VObj [("students", VArr [])])).
Proof. split; vm_compute; reflexivity. Qed.

(** C1.  The inclusion test of [GET /students] is not carried out on every
    field: on the store of Alice and bob, a search in [id] (a number, so
    truthy and without [toLowerCase]) and a search in [constructor] (a
    name no record has as its own, found on the prototype) both throw a
    [TypeError] in place of answering with a collection. *)
Theorem get_students_search_throws :
  fst (get_students ascii_toLowerCase (Some "id") (Some "17") two_students)
  = Throw (TypeError "student[searchBy].toLowerCase is not a function") /\
  fst (get_students ascii_toLowerCase (Some "constructor") (Some "obj")
         two_students)
  = Throw (TypeError "student[searchBy].toLowerCase is not a function").
Proof. split; vm_compute; reflexivity. Qed.

(** C2.  [GET /students] does not always answer with status 200: on a
    stored collection whose first record has a time stamp as [id], every
    search in [id] with a non-empty query throws. *)
Theorem get_students_by_id_throws lower query w first rest :
  fst (loadStudents w) = Return (VArr (first :: rest)) ->
  stamped first ->
  query <> "" ->
  exists e,
    fst (get_students lower (Some "id") (Some query) w) = Throw e.
Proof.
  intros Hload [n [Hid Hn]] Hquery.
  rewrite loadStudents_fst in Hload. injection Hload as Hstored.
  rewrite get_students_eq. cbn [fst]. unfold answer. rewrite Hstored.
  apply String.eqb_neq in Hquery. cbn [truthy_param]. rewrite Hquery.
  cbn [String.eqb Ascii.eqb Bool.eqb negb orb param_toLowerCase obind
       property_key Array_filter filter_loop].
  destruct (matches_not_text lower "id" (lower query) first (Data (VNum n)) Hid)
    as [e He].
  - cbn. apply negb_true_iff, Z.eqb_neq, Hn.
  - intros s. discriminate.
  - exists e. rewrite He. reflexivity.
Qed.

Lemma get_students_by_id_throws_witness :
  exists e,
    fst (get_students ascii_toLowerCase (Some "id") (Some "17") two_students)
    = Throw e.
Proof.
  apply (get_students_by_id_throws ascii_toLowerCase "17" two_students
           alice [bob] eq_refl).
  - exists 1700000000000%Z. split; [ reflexivity | discriminate ].
  - discriminate.
Defined.

(** At start-up a missing file is created with the empty collection,
    which [GET /students] then lists. *)
Example on_listen_creates_file :
  db_file (fs (snd (on_listen (PORT None) (world_of None true true 0)))) =
  Some (Json (VArr [])) /\
  fst (get_students ascii_toLowerCase None None
         (snd (on_listen (PORT None) (world_of None true true 0)))) =
  Return (res_json 200 (VObj [("students", VArr [])])).
Proof. split; reflexivity. Qed.

(** *** Round trip *)

(** What the client receives of an answer built by [res_json]. *)
Lemma received_students code students :
  received (res_json code (VObj [("students", VArr students)])) =
  Some (VObj [("students", VArr (map json_elem students))]).
Proof. reflexivity. Qed.

Lemma received_created student :
  omitted student = false ->
  received (created student) =
  Some (VObj [ ("message", VStr "Student added");
               ("student", jsonify student) ]).
Proof.
  intros Hkept. unfold received, wire, created, res_json, payload,
    JSON_stringify. cbn [omitted]. rewrite jsonify_obj. cbn [json_props omitted].
  rewrite Hkept. reflexivity.
Qed.

Lemma appears_last (x : value) l : ~ In x l -> appears_exactly_once x (l ++ [x]).
Proof.
  intros Hnew. exists l, []. repeat split; [ exact Hnew | intros [] ].
Qed.

(** C7, amended.  After a successful [POST /students] on a readable file
    that loads as a collection, with the write succeeding, an unfiltered
    [GET /students] lists what it listed before followed by the record the
    201 answer carried, field for field: the new record comes last, after
    every record stored before, and the handler adds it once.  It is the
    only occurrence when no record listed before is identical to it. *)
Theorem round_trip lower body w records :
  Forall (supplies body) required ->
  fst (loadStudents w) = Return (VArr records) ->
  readable (fs w) = true ->
  writable (fs w) = true ->
  exists student w' sent before,
    post_students body w = (Return (created student), w') /\
    received (created student) =
    Some (VObj [ ("message", VStr "Student added"); ("student", sent) ]) /\
    lists (fst (get_students lower None None w)) before /\
    lists (fst (get_students lower None None w')) (before ++ [sent]) /\
    (~ In sent before -> appears_exactly_once sent (before ++ [sent])).
Proof.
  intros Hall Hload Hread Hwrite.
  rewrite loadStudents_fst in Hload. injection Hload as Hstored.
  run_post body w Hall. rewrite Hstored in Hrun. cbn [Array_push] in Hrun.
  set (w' := with_line _ _) in Hrun.
  exists student, w', (jsonify student), (map json_elem records).
  split; [ exact Hrun | ].
  split; [ apply received_created; reflexivity | ].
  split.
  { eexists. split; [ apply get_students_unfiltered; left; reflexivity | ].
    split; [ reflexivity | ]. rewrite Hstored. apply received_students. }
  split.
  { eexists. split; [ apply get_students_unfiltered; left; reflexivity | ].
    split; [ reflexivity | ].
    assert (Hw1 : writable (fs (snd (loadStudents w))) = true)
      by (rewrite loadStudents_fs; exact Hwrite).
    destruct (saveStudents_written (records ++ [student]) _ Hw1) as [Hfs _].
    subst w'. cbn [fs with_line]. rewrite Hfs, loadStudents_fs.
    rewrite (stored_with_file _ _ Hread), received_students.
    rewrite map_map, map_app. cbn [map].
    rewrite (map_ext _ _ json_elem_idempotent).
    rewrite json_elem_idempotent. reflexivity. }
  apply appears_last.
Qed.

Lemma round_trip_witness :
  exists student w' sent before,
    post_students carol_form two_students = (Return (created student), w') /\
    lists (fst (get_students ascii_toLowerCase None None w'))
      (before ++ [sent]).
Proof.
  destruct (round_trip ascii_toLowerCase carol_form two_students [alice; bob]
              supplies_carol eq_refl eq_refl eq_refl)
    as (student & w' & sent & before & Hrun & _ & _ & Hlists & _).
  exists student, w', sent, before. split; assumption.
Defined.

(** C7, as stated, fails when a stored record is identical to the new
    one: posting Alice's form at the millisecond of Alice's [id], on the
    store that holds Alice, lists her record twice. *)
Lemma round_trip_duplicate :
  fst (post_students alice_form alice_store) = Return (created alice) /\
  received (created alice) =
  Some (VObj [ ("message", VStr "Student added"); ("student", alice) ]) /\
  lists (fst (get_students ascii_toLowerCase None None
                (snd (post_students alice_form alice_store))))
        [alice; alice] /\
  ~ appears_exactly_once alice [alice; alice].
Proof.
  split; [ vm_compute; reflexivity | ].
  split; [ vm_compute; reflexivity | ].
  split.
  { eexists. split; [ vm_compute; reflexivity | ].
    split; vm_compute; reflexivity. }
  intros (before & after & Hsplit & Hbefore & Hafter).
  destruct before as [ | x [ | y before ] ]; cbn in Hsplit.
  - injection Hsplit as <-. apply Hafter. left. reflexivity.
  - injection Hsplit as <- _. apply Hbefore. left. reflexivity.
  - injection Hsplit as _ _ Hrest. destruct before; discriminate Hrest.
Qed.

End Properties.

(** ** Facts for the further properties *)

Module FurtherFacts.
Import JS Eff Server Spec Notions JSFacts StoreFacts RouteFacts.

(** *** Serialisation *)

(** Writing keeps a truthy value truthy unless it is an infinity. *)
Lemma truthy_jsonify v :
  truthy v = true -> (forall negative, v <> VOther (Infinity negative)) ->
  truthy (jsonify v) = true.
Proof.
  intros Htruthy Hfinite.
  destruct v as [ | | b | n | [ num den | negative | ] | s | elems | props ];
    try exact Htruthy; try reflexivity.
  contradiction (Hfinite negative). reflexivity.
Qed.

Lemma truthy_of_jsonify v : truthy (jsonify v) = true -> truthy v = true.
Proof.
  destruct v as [ | | b | n | [ num den | negative | ] | s | elems | props ];
    intros H; try exact H; try reflexivity; discriminate H.
Qed.

Lemma truthy_kept v : truthy v = true -> omitted v = false.
Proof. destruct v; try reflexivity; discriminate. Qed.

(** A property that is written out is read back under the same name. *)
Lemma own_json_props k props v :
  own k props = Some v -> omitted v = false ->
  own k (json_props props) = Some (jsonify v).
Proof.
  intros Hown Hkept. induction props as [ | [k' x] rest IH ];
    [ discriminate | ].
  cbn [own] in Hown. cbn [json_props].
  destruct (k' =? k) eqn:Hk.
  - injection Hown as ->. rewrite Hkept. cbn [own]. rewrite Hk. reflexivity.
  - destruct (omitted x); [ apply IH, Hown | ].
    cbn [own]. rewrite Hk. apply IH, Hown.
Qed.

(** A complete record is an object, and stays complete when written. *)
Lemma keeps_object record k :
  In k required -> keeps record k ->
  exists props v,
    record = VObj props /\ own k props = Some v /\
    truthy (jsonify v) = true.
Proof.
  intros Hk [v [Hv Htruthy]]. cbn in Hk.
  destruct record as [ | | b | n | x | s | elems | props ];
    try discriminate Hv.
  1-5: exfalso;
    repeat (destruct Hk as [ <- | Hk ];
            [ vm_compute in Hv; injection Hv as <-; discriminate Htruthy | ]);
    destruct Hk.
  exists props, v. split; [ reflexivity | ].
  split; [ | exact Htruthy ].
  rewrite field_own in Hv by (cbn; intuition).
  destruct (own k props) as [ y | ]; injection Hv as Hv; subst v;
    [ reflexivity | discriminate Htruthy ].
Qed.

Lemma keeps_json_elem record k :
  In k required -> keeps record k -> keeps (json_elem record) k.
Proof.
  intros Hk Hkeeps.
  destruct (keeps_object record k Hk Hkeeps) as (props & v & -> & Hown & Hv).
  unfold json_elem. cbn [omitted]. rewrite jsonify_obj.
  exists (jsonify v). split; [ | rewrite jsonify_idempotent; exact Hv ].
  rewrite field_own by (cbn in Hk; cbn; intuition).
  rewrite (own_json_props _ _ _ Hown
             (truthy_kept _ (truthy_of_jsonify _ Hv))).
  reflexivity.
Qed.

Lemma complete_json_elem record : complete record -> complete (json_elem record).
Proof.
  unfold complete. rewrite !Forall_forall. intros Hall k Hk.
  apply keeps_json_elem; auto.
Qed.

(** *** Substrings *)

Lemma append_assoc (a b c : string) :
  ((a ++ b) ++ c = a ++ (b ++ c))%string.
Proof. induction a as [ | x a IH ]; cbn; [ | rewrite IH ]; reflexivity. Qed.

Lemma includes_trans s t u :
  includes s t = true -> includes t u = true -> includes s u = true.
Proof.
  rewrite !includes_substring. intros (a & b & ->) (c & d & ->).
  exists (a ++ c)%string, (d ++ b)%string.
  rewrite !append_assoc. reflexivity.
Qed.

(** *** Creating *)

(** The outcome of a valid creation, with the record named by [built]. *)
Lemma post_students_built body w :
  Forall (supplies body) required ->
  post_students body w =
  match Array_push (stored (fs w)) (built (clock w) body) with
  | Return students' =>
      (Return (created (built (clock w) body)),
       with_line
         (ConsoleLog "Added new student (and saved to students.json):"
            (built (clock w) body))
         (snd (saveStudents students' (snd (loadStudents w)))))
  | Throw e => (Throw e, snd (loadStudents w))
  end.
Proof.
  intros Hall. run_post body w Hall.
  assert (Hbuilt : built (clock w) body = student).
  { unfold built, read.
    rewrite Hname, HrollNo, Huid, Hblood, Haddress, Hyear, Hdept.
    reflexivity. }
  rewrite Hbuilt. exact Hrun.
Qed.

(** The file after a valid creation on a store that loads as a
    collection. *)
Lemma post_students_file body w records :
  Forall (supplies body) required ->
  stored (fs w) = VArr records ->
  writable (fs w) = true ->
  fst (post_students body w) = Return (created (built (clock w) body)) /\
  fs (snd (post_students body w)) =
  with_file (Json (VArr (map json_elem records ++ [sent (clock w, body)])))
    (fs w).
Proof.
  intros Hall Hstored Hw.
  rewrite (post_students_built body w Hall), Hstored. cbn [Array_push fst snd].
  split; [ reflexivity | ].
  assert (Hw1 : writable (fs (snd (loadStudents w))) = true)
    by (rewrite loadStudents_fs; exact Hw).
  destruct (saveStudents_written (records ++ [built (clock w) body]) _ Hw1)
    as [Hfs _].
  cbn [fs with_line]. rewrite Hfs, loadStudents_fs, map_app. reflexivity.
Qed.

(** A body is rejected or accepted: when destructuring succeeds, either
    a required field is lacking or all are supplied. *)
Lemma lacks_or_supplies body :
  body <> VUndefined -> body <> VNull ->
  Exists (lacks body) required \/ Forall (supplies body) required.
Proof.
  intros Hu Hn.
  assert (Hdec : forall k, lacks body k \/ supplies body k).
  { intros k. destruct (field_returns body k Hu Hn) as [v Hv].
    destruct (truthy v) eqn:Htruthy; [ right | left ]; exists v; auto. }
  unfold required.
  destruct (Hdec "name"); [ left; apply Exists_exists; eexists; split;
                            [ | eassumption ]; cbn; tauto | ].
  destruct (Hdec "rollNo"); [ left; apply Exists_exists; eexists; split;
                              [ | eassumption ]; cbn; tauto | ].
  destruct (Hdec "universityId"); [ left; apply Exists_exists; eexists; split;
                                    [ | eassumption ]; cbn; tauto | ].
  destruct (Hdec "year"); [ left; apply Exists_exists; eexists; split;
                            [ | eassumption ]; cbn; tauto | ].
  destruct (Hdec "department"); [ left; apply Exists_exists; eexists; split;
                                  [ | eassumption ]; cbn; tauto | ].
  right. repeat (apply Forall_cons; [ assumption | ]). apply Forall_nil.
Qed.

(** *** Searching *)

Section Searching.

Variable lower : string -> string.

(** When the callback returns, the value it met was a text or falsy. *)
Lemma matches_returns searchBy lowerQuery record keep :
  matches lower searchBy lowerQuery record = Return keep ->
  text_or_falsy searchBy record.
Proof.
  unfold matches, text_or_falsy.
  destruct (get_prop record searchBy) as [ p | e ]; [ | discriminate ].
  cbn [obind]. intros Hkeep. exists p. split; [ reflexivity | ].
  destruct (truthy_property p) eqn:Htruthy; [ right | left; reflexivity ].
  destruct p as [ [ | | b | n | x | s | elems | props ] | name ];
    try discriminate Hkeep; try discriminate Htruthy.
  exists s. reflexivity.
Qed.

Lemma filter_loop_returns searchBy lowerQuery records kept :
  filter_loop (matches lower searchBy lowerQuery) records = Return kept ->
  Forall (text_or_falsy searchBy) records.
Proof.
  revert kept. induction records as [ | record rest IH ]; intros kept Hkept.
  - apply Forall_nil.
  - cbn [filter_loop] in Hkept.
    destruct (matches lower searchBy lowerQuery record) as [ keep | e ] eqn:Hm;
      [ | discriminate ].
    cbn [obind] in Hkept.
    destruct (filter_loop (matches lower searchBy lowerQuery) rest)
      as [ kept' | e ]; [ | discriminate ].
    apply Forall_cons; [ exact (matches_returns _ _ _ _ Hm) | ].
    apply (IH kept'). reflexivity.
Qed.

(** The answer to a search, on a store that loads as a collection. *)
Lemma get_students_searching searchBy query records w :
  stored (fs w) = VArr records ->
  searching searchBy query ->
  fst (get_students lower (Some searchBy) (Some query) w) =
  obind (filter_loop (matches lower searchBy (lower query)) records)
    (fun kept => Return (res_json 200 (VObj [("students", VArr kept)]))).
Proof.
  intros Hstored [Hs Hq]. rewrite get_students_eq. cbn [fst]. unfold answer.
  rewrite Hstored. apply String.eqb_neq in Hs, Hq. cbn [truthy_param].
  rewrite Hs, Hq.
  cbn [negb orb param_toLowerCase obind property_key Array_filter].
  destruct (filter_loop _ records); reflexivity.
Qed.

End Searching.

(** *** Records *)

Lemma json_elem_sent request : json_elem (sent request) = sent request.
Proof.
  unfold sent, json_elem. rewrite omitted_jsonify. cbn [built newStudent omitted].
  apply jsonify_idempotent.
Qed.

(** The record built reads back the body at the required fields. *)
Lemma field_built t body k :
  In k required -> field (built t body) k = Return (read body k).
Proof.
  intros Hk. cbn in Hk.
  repeat (destruct Hk as [ <- | Hk ]; [ reflexivity | ]). destruct Hk.
Qed.

Lemma complete_built t body :
  Forall (supplies body) required -> finite_fields body ->
  complete (built t body).
Proof.
  intros Hall Hfinite. unfold complete. rewrite Forall_forall in *.
  intros k Hk. destruct (Hall k Hk) as [v [Hv Htruthy]].
  exists v. split.
  - rewrite (field_built t body k Hk). unfold read. rewrite Hv. reflexivity.
  - apply truthy_jsonify; [ exact Htruthy | ].
    intros negative ->. exact (Hfinite k negative Hk Hv).
Qed.

(** What the client receives of a listing and of a creation. *)
Lemma received_listing code students :
  received (res_json code (VObj [("students", VArr students)])) =
  Some (VObj [("students", VArr (map json_elem students))]).
Proof. reflexivity. Qed.

Lemma received_creation t body :
  received (created (built t body)) =
  Some (VObj [ ("message", VStr "Student added");
               ("student", sent (t, body)) ]).
Proof. reflexivity. Qed.

(** Any other body leaves the world alone. *)
Lemma post_students_idle body w :
  ~ Forall (supplies body) required -> snd (post_students body w) = w.
Proof.
  intros Hnot.
  destruct body as [ | | b | n | x | s | elems | props ]; try reflexivity.
  all: match goal with
       | |- snd (post_students ?b' ?w') = _ =>
           assert (Hu : b' <> VUndefined) by discriminate;
           assert (Hn : b' <> VNull) by discriminate;
           destruct (lacks_or_supplies b' Hu Hn) as [ Hlacks | Hall ];
           [ rewrite (post_students_invalid b' w' Hlacks); reflexivity
           | contradiction ]
       end.
Qed.

Lemma supplies_or_not body :
  Forall (supplies body) required \/ ~ Forall (supplies body) required.
Proof.
  destruct body as [ | | b | n | x | s | elems | props ].
  1-2: right; intros Hall; apply Forall_inv in Hall;
       destruct Hall as [v [Hv _]]; discriminate Hv.
  all: match goal with
       | |- Forall (supplies ?b') _ \/ _ =>
           assert (Hu : b' <> VUndefined) by discriminate;
           assert (Hn : b' <> VNull) by discriminate;
           destruct (lacks_or_supplies b' Hu Hn) as [ Hlacks | Hall ];
           [ right | left; exact Hall ]
       end.
  all: intros Hall; apply Exists_exists in Hlacks;
    destruct Hlacks as [k [Hk [v [Hv Hfalsy]]]];
    rewrite Forall_forall in Hall;
    destruct (Hall k Hk) as [v' [Hv' Htruthy]];
    rewrite Hv in Hv'; injection Hv' as <-; congruence.
Qed.

End FurtherFacts.

(** ** Further properties of the service *)

Module Further.
Import JS Eff Server Spec Notions JSFacts StoreFacts RouteFacts FurtherFacts.

(** *** Start-up *)

(** X1.  The [app.listen] callback never throws and never overwrites: a
    file that exists, whatever it holds, is left as it is after the one
    [existsSync]; a missing file that can be written becomes the empty
    collection; and a second start-up finds the file system the first one
    left. *)
Theorem on_listen_keeps_existing_file port w :
  fst (on_listen port w) = Return tt /\
  (db_file (fs w) <> None ->
   fs (snd (on_listen port w)) = fs w /\
   calls (snd (on_listen port w)) = calls w ++ [ExistsSync]) /\
  (db_file (fs w) = None -> writable (fs w) = true ->
   db_file (fs (snd (on_listen port w))) = Some (Json (VArr []))) /\
  fs (snd (on_listen port (snd (on_listen port w)))) =
  fs (snd (on_listen port w)).
Proof.
  destruct w as [ [ [ content | ] can_read [ | ] ] t out made ];
    cbn [fs db_file writable];
    (split; [ reflexivity | ]);
    (split; [ intros Hsome; try contradiction (Hsome eq_refl);
              split; reflexivity | ]);
    (split; [ intros Hnone; try discriminate Hnone;
              intros Hw; try discriminate Hw; reflexivity | ]);
    reflexivity.
Qed.

Lemma on_listen_keeps_existing_file_witness :
  fs (snd (on_listen (PORT None) corrupt_store)) = fs corrupt_store /\
  db_file (fs (snd (on_listen (PORT None) missing_store))) =
  Some (Json (VArr [])).
Proof.
  destruct (on_listen_keeps_existing_file (PORT None) corrupt_store)
    as (_ & Hkept & _ & _).
  destruct (on_listen_keeps_existing_file (PORT None) missing_store)
    as (_ & _ & Hmade & _).
  split.
  - apply Hkept. discriminate.
  - apply Hmade; reflexivity.
Defined.

(** X2.  When the file is missing and the write is refused, start-up
    still goes on: the file stays missing, the write error is logged, and
    the line announcing the creation of the file is logged after it. *)
Theorem on_listen_announces_failed_creation port w :
  db_file (fs w) = None ->
  writable (fs w) = false ->
  fst (on_listen port w) = Return tt /\
  db_file (fs (snd (on_listen port w))) = None /\
  exists later,
    console (snd (on_listen port w)) =
    console w ++
    [ ConsoleError "Error writing to database:" (SystemError "EACCES");
      ConsoleLog "Created empty students.json database file." VUndefined ]
    ++ later.
Proof.
  destruct w as [ [ file can_read can_write ] t out made ].
  cbn [fs db_file writable]. intros -> ->.
  split; [ reflexivity | ]. split; [ reflexivity | ].
  eexists. cbn. rewrite <- !app_assoc. reflexivity.
Qed.

Lemma on_listen_announces_failed_creation_witness :
  db_file (fs (snd (on_listen (PORT None) locked_missing_store))) = None /\
  In (ConsoleLog "Created empty students.json database file." VUndefined)
     (console (snd (on_listen (PORT None) locked_missing_store))).
Proof.
  destruct (on_listen_announces_failed_creation (PORT None)
              locked_missing_store
              eq_refl eq_refl) as (_ & Hfile & later & Hlog).
  split; [ exact Hfile | ].
  rewrite Hlog. cbn. right. left. reflexivity.
Defined.

(** *** Searching *)

Section Searches.

Variable lower : string -> string.

(** X4.  A search over records whose value at [searchBy] is a text or
    falsy is answered with status 200 and the stored records that pass
    the test, in stored order: a record is listed exactly when it is
    stored and has at [searchBy] a non-empty text whose lowercase contains
    the lowercased query. *)
Theorem get_students_lists_matches searchBy query records w :
  fst (loadStudents w) = Return (VArr records) ->
  searching searchBy query ->
  Forall (text_or_falsy searchBy) records ->
  exists kept,
    fst (get_students lower (Some searchBy) (Some query) w) =
    Return (res_json 200 (VObj [("students", VArr kept)])) /\
    kept = filter (field_matches lower searchBy query) records /\
    forall record,
      In record kept <->
      In record records /\
      exists s,
        get_prop record searchBy = Return (Data (VStr s)) /\ s <> "" /\
        exists a b, lower s = (a ++ lower query ++ b)%string.
Proof.
  intros Hload Hsearch Htext.
  rewrite loadStudents_fst in Hload. injection Hload as Hstored.
  exists (filter (field_matches lower searchBy query) records).
  split; [ | split; [ reflexivity | ] ].
  - rewrite (get_students_searching lower _ _ _ _ Hstored Hsearch).
    rewrite (filter_loop_text lower _ _ _ Htext). reflexivity.
  - intros record. rewrite filter_In, field_matches_spec. reflexivity.
Qed.

(** X5.  A search on a store that loads as a collection is answered
    exactly when every stored record has a text or a falsy value at
    [searchBy]; one record with any other value there (a number, [true],
    an array, an object, an inherited member), or a [null] record, makes
    the whole request throw. *)
Theorem get_students_answers_iff_text searchBy query records w :
  fst (loadStudents w) = Return (VArr records) ->
  searching searchBy query ->
  (exists r, fst (get_students lower (Some searchBy) (Some query) w) = Return r)
  <-> Forall (text_or_falsy searchBy) records.
Proof.
  intros Hload Hsearch.
  rewrite loadStudents_fst in Hload. injection Hload as Hstored.
  rewrite (get_students_searching lower _ _ _ _ Hstored Hsearch).
  split.
  - intros [r Hr].
    destruct (filter_loop (matches lower searchBy (lower query)) records)
      as [ kept | e ] eqn:Hloop; [ | discriminate Hr ].
    exact (filter_loop_returns lower _ _ _ _ Hloop).
  - intros Htext. rewrite (filter_loop_text lower _ _ _ Htext).
    eexists. reflexivity.
Qed.

(** X6.  When the file holds a JSON value that is not an array, a request
    without a search is answered with status 200 carrying that value as
    [students], and every search throws. *)
Theorem get_students_on_non_array searchBy query stored_value w :
  fst (loadStudents w) = Return stored_value ->
  (forall elems, stored_value <> VArr elems) ->
  fst (get_students lower None None w) =
  Return (res_json 200 (VObj [("students", stored_value)])) /\
  (searching searchBy query ->
   exists e,
     fst (get_students lower (Some searchBy) (Some query) w) = Throw e).
Proof.
  intros Hload Hnot.
  rewrite loadStudents_fst in Hload. injection Hload as Hstored.
  split.
  - rewrite get_students_eq. cbn [fst]. unfold answer. rewrite Hstored.
    reflexivity.
  - intros [Hs Hq]. rewrite get_students_eq. cbn [fst]. unfold answer.
    rewrite Hstored. apply String.eqb_neq in Hs, Hq. cbn [truthy_param].
    rewrite Hs, Hq. cbn [negb orb param_toLowerCase obind].
    destruct stored_value as [ | | b | n | x | s | elems | props ];
      try (contradiction (Hnot elems); reflexivity);
      cbn; eexists; reflexivity.
Qed.

(** X7.  The search does not see the case of the query nor of the field:
    two non-empty queries with the same lowercase get the same answer,
    and two records whose texts at [searchBy] have the same lowercase are
    kept or dropped alike. *)
Theorem get_students_case_blind searchBy query query' w :
  query <> "" -> query' <> "" ->
  lower query = lower query' ->
  fst (get_students lower (Some searchBy) (Some query) w) =
  fst (get_students lower (Some searchBy) (Some query') w) /\
  forall record record' s s',
    get_prop record searchBy = Return (Data (VStr s)) ->
    get_prop record' searchBy = Return (Data (VStr s')) ->
    s <> "" -> s' <> "" -> lower s = lower s' ->
    matches lower searchBy (lower query) record =
    matches lower searchBy (lower query') record'.
Proof.
  intros Hq Hq' Hsame. split.
  - rewrite !get_students_eq. cbn [fst]. unfold answer.
    apply String.eqb_neq in Hq, Hq'. cbn [truthy_param]. rewrite Hq, Hq'.
    cbn [param_toLowerCase]. rewrite Hsame. reflexivity.
  - intros record record' s s' Hs Hs' Hne Hne' Hlow. unfold matches.
    rewrite Hs, Hs'. cbn [obind truthy_property truthy call_toLowerCase].
    apply String.eqb_neq in Hne, Hne'. rewrite Hne, Hne'. cbn [negb obind].
    rewrite Hlow, Hsame. reflexivity.
Qed.

(** X8.  Narrowing the query narrows the answer: over records with text
    or falsy values at [searchBy], when the lowercased first query occurs
    in the lowercased second one, every record listed for the second
    query is listed for the first. *)
Theorem get_students_narrowing searchBy query query' records w :
  fst (loadStudents w) = Return (VArr records) ->
  searchBy <> "" -> query <> "" -> query' <> "" ->
  Forall (text_or_falsy searchBy) records ->
  includes (lower query') (lower query) = true ->
  exists kept kept',
    fst (get_students lower (Some searchBy) (Some query) w) =
    Return (res_json 200 (VObj [("students", VArr kept)])) /\
    fst (get_students lower (Some searchBy) (Some query') w) =
    Return (res_json 200 (VObj [("students", VArr kept')])) /\
    incl kept' kept.
Proof.
  intros Hload Hs Hq Hq' Htext Hnarrow.
  exists (filter (field_matches lower searchBy query) records),
         (filter (field_matches lower searchBy query') records).
  split; [ apply (get_students_filter_text lower _ _ _ _ Hload Hs Hq Htext) | ].
  split; [ apply (get_students_filter_text lower _ _ _ _ Hload Hs Hq' Htext) | ].
  intros record. rewrite !filter_In. intros [Hin Hmatch].
  split; [ exact Hin | ].
  unfold field_matches in *.
  destruct (get_prop record searchBy)
    as [ [ [ | | b | n | x | s | elems | props ] | name ] | e ];
    try discriminate Hmatch.
  apply andb_true_iff in Hmatch. destruct Hmatch as [Hne Hinc].
  rewrite Hne. cbn [andb]. exact (includes_trans _ _ _ Hinc Hnarrow).
Qed.

End Searches.

Lemma names_are_text : Forall (text_or_falsy "name") [alice; bob].
Proof.
  repeat (apply Forall_cons;
          [ eexists; split; [ reflexivity | right; eexists; reflexivity ] | ]).
  apply Forall_nil.
Qed.

Lemma searching_name_ALI : searching "name" "ALI".
Proof. split; discriminate. Qed.

Lemma get_students_lists_matches_witness :
  fst (get_students ascii_toLowerCase (Some "name") (Some "ALI") two_students)
  = Return (res_json 200 (VObj [("students", VArr [alice])])).
Proof.
  destruct (get_students_lists_matches ascii_toLowerCase "name" "ALI"
              [alice; bob] two_students eq_refl searching_name_ALI
              names_are_text)
    as (kept & Hanswer & Hkept & _).
  rewrite Hanswer, Hkept. vm_compute. reflexivity.
Defined.

Lemma get_students_answers_iff_text_witness :
  exists r,
    fst (get_students ascii_toLowerCase (Some "name") (Some "ALI")
           two_students) = Return r.
Proof.
  apply (proj2 (get_students_answers_iff_text ascii_toLowerCase "name" "ALI"
                  [alice; bob] two_students eq_refl searching_name_ALI)).
  exact names_are_text.
Defined.

Lemma get_students_on_non_array_witness :
  fst (get_students ascii_toLowerCase None None object_store) =
  Return (res_json 200
            (VObj [("students", VObj [("students", VArr [alice])])])) /\
  exists e,
    fst (get_students ascii_toLowerCase (Some "name") (Some "ali")
           object_store) = Throw e.
Proof.
  destruct (get_students_on_non_array ascii_toLowerCase "name" "ali"
              (VObj [("students", VArr [alice])]) object_store eq_refl
              (fun elems H => ltac:(discriminate H)))
    as [Hall Hsearch].
  split; [ exact Hall | ].
  apply Hsearch. split; discriminate.
Defined.

Lemma get_students_case_blind_witness :
  fst (get_students ascii_toLowerCase (Some "name") (Some "ALI") two_students)
  = fst (get_students ascii_toLowerCase (Some "name") (Some "ali")
           two_students).
Proof.
  apply (get_students_case_blind ascii_toLowerCase "name" "ALI" "ali"
           two_students); [ discriminate | discriminate | reflexivity ].
Defined.

Lemma get_students_narrowing_witness :
  exists kept kept',
    fst (get_students ascii_toLowerCase (Some "name") (Some "li") two_students)
    = Return (res_json 200 (VObj [("students", VArr kept)])) /\
    fst (get_students ascii_toLowerCase (Some "name") (Some "ali") two_students)
    = Return (res_json 200 (VObj [("students", VArr kept')])) /\
    incl kept' kept.
Proof.
  apply (get_students_narrowing ascii_toLowerCase "name" "li" "ali"
           [alice; bob] two_students eq_refl);
    try discriminate; [ exact names_are_text | reflexivity ].
Defined.

(** *** Creating *)

(** X9.  [POST /students] does nothing unless every required field is
    truthy: for any other body the world is left exactly as it was (no
    load, no save, no log line), and the outcome is the 400 answer, or a
    [TypeError] when the body is [undefined] or [null]. *)
Theorem post_students_acts_only_when_valid body w :
  ~ Forall (supplies body) required ->
  snd (post_students body w) = w /\
  (fst (post_students body w) =
   Return (res_json 400 (VObj [("error", VStr missing_fields)])) \/
   (body = VUndefined \/ body = VNull) /\
   exists msg, fst (post_students body w) = Throw (TypeError msg)).
Proof.
  intros Hnot.
  destruct body as [ | | b | n | x | s | elems | props ].
  1: split; [ reflexivity | right; split; [ left; reflexivity | ];
              eexists; reflexivity ].
  1: split; [ reflexivity | right; split; [ right; reflexivity | ];
              eexists; reflexivity ].
  all: match goal with
       | |- snd (post_students ?b' ?w') = _ /\ _ =>
           assert (Hu : b' <> VUndefined) by discriminate;
           assert (Hn : b' <> VNull) by discriminate;
           destruct (lacks_or_supplies b' Hu Hn) as [ Hlacks | Hall ];
           [ rewrite (post_students_invalid b' w' Hlacks);
             split; [ reflexivity | left; reflexivity ]
           | contradiction ]
       end.
Qed.

Lemma post_students_acts_only_when_valid_witness :
  snd (post_students unnamed_form two_students) = two_students /\
  snd (post_students VNull two_students) = two_students.
Proof.
  split.
  - apply (post_students_acts_only_when_valid unnamed_form two_students).
    intros Hall. apply Forall_inv in Hall. destruct Hall as [v [Hv Htruthy]].
    injection Hv as <-. discriminate Htruthy.
  - apply (post_students_acts_only_when_valid VNull two_students).
    intros Hall. apply Forall_inv in Hall. destruct Hall as [v [Hv _]].
    discriminate Hv.
Defined.

(** The listing after a run of valid creations, from the stored
    collection. *)
Lemma post_all_listing lower requests :
  Forall (fun request => Forall (supplies (snd request)) required) requests ->
  forall w records,
    stored (fs w) = VArr records ->
    readable (fs w) = true -> writable (fs w) = true ->
    lists (fst (get_students lower None None (post_all requests w)))
      (map json_elem records ++ map sent requests).
Proof.
  induction 1 as [ | [t body] rest Hvalid Hrest IH ];
    intros w records Hstored Hread Hwrite.
  - cbn [post_all map]. rewrite app_nil_r. eexists.
    split; [ rewrite get_students_eq; reflexivity | ].
    split; [ reflexivity | ]. cbn [fst]. rewrite Hstored.
    apply received_listing.
  - cbn [post_all map]. cbn [snd] in Hvalid.
    destruct (post_students_file body (at_time t w) records Hvalid Hstored
                Hwrite) as [_ Hfs].
    cbn [at_time clock fs] in Hfs.
    set (w1 := snd (post_students body (at_time t w))) in *.
    assert (Hstored1 : stored (fs w1) =
                       VArr (map json_elem records ++ [sent (t, body)])).
    { rewrite Hfs. apply stored_with_file, Hread. }
    assert (Hread1 : readable (fs w1) = true) by (rewrite Hfs; exact Hread).
    assert (Hwrite1 : writable (fs w1) = true) by (rewrite Hfs; exact Hwrite).
    specialize (IH w1 _ Hstored1 Hread1 Hwrite1).
    rewrite map_app, map_map in IH. cbn [map] in IH.
    rewrite (map_ext _ _ json_elem_idempotent), json_elem_sent in IH.
    rewrite <- app_assoc in IH. exact IH.
Qed.

(** X10.  Creations keep their order: after any run of valid
    [POST /students] requests on a file that can be read and written and
    loads as a collection, [GET /students] lists the records listed
    before the run, then one record per request in the order the requests
    were handled, each stamped with the time of its own request. *)
Theorem post_all_keeps_order lower requests w records :
  Forall (fun request => Forall (supplies (snd request)) required) requests ->
  fst (loadStudents w) = Return (VArr records) ->
  readable (fs w) = true ->
  writable (fs w) = true ->
  lists (fst (get_students lower None None w)) (map json_elem records) /\
  lists (fst (get_students lower None None (post_all requests w)))
    (map json_elem records ++ map sent requests) /\
  Forall (fun request =>
            field (sent request) "id" = Return (VNum (fst request)))
         requests.
Proof.
  intros Hvalid Hload Hread Hwrite.
  rewrite loadStudents_fst in Hload. injection Hload as Hstored.
  split; [ | split ].
  - pose proof (post_all_listing lower [] (Forall_nil _) w records Hstored
                  Hread Hwrite) as H.
    cbn [post_all map] in H. rewrite app_nil_r in H. exact H.
  - exact (post_all_listing lower requests Hvalid w records Hstored Hread
             Hwrite).
  - apply Forall_forall. intros [t body] _. reflexivity.
Qed.

Lemma supplies_dave : Forall (supplies dave_form) required.
Proof.
  unfold required.
  repeat (apply Forall_cons; [ eexists; split; reflexivity | ]).
  apply Forall_nil.
Qed.

Lemma supplies_carol_form : Forall (supplies carol_form) required.
Proof.
  unfold required.
  repeat (apply Forall_cons; [ eexists; split; reflexivity | ]).
  apply Forall_nil.
Qed.

Lemma post_all_keeps_order_witness :
  lists (fst (get_students ascii_toLowerCase None None
                (post_all [ (1700000002000%Z, carol_form);
                            (1700000003000%Z, dave_form) ] two_students)))
    ([alice; bob] ++
     [ sent (1700000002000%Z, carol_form);
       sent (1700000003000%Z, dave_form) ]).
Proof.
  apply (post_all_keeps_order ascii_toLowerCase
           [ (1700000002000%Z, carol_form); (1700000003000%Z, dave_form) ]
           two_students [alice; bob]); try reflexivity.
  repeat (apply Forall_cons;
          [ first [ exact supplies_carol_form | exact supplies_dave ] | ]).
  apply Forall_nil.
Defined.

(** X11.  A record created without [bloodGroup] has no such property
    once it is sent or stored, while [address] is always there: the
    record the client receives, which is also the one appended to the
    file, has no [bloodGroup] of its own and has an [address]. *)
Theorem post_students_drops_absent_bloodGroup body w records :
  Forall (supplies body) required ->
  field body "bloodGroup" = Return VUndefined ->
  fst (loadStudents w) = Return (VArr records) ->
  exists props,
    sent (clock w, body) = VObj props /\
    own "bloodGroup" props = None /\
    (exists address, own "address" props = Some address) /\
    fst (post_students body w) = Return (created (built (clock w) body)) /\
    received (created (built (clock w) body)) =
    Some (VObj [ ("message", VStr "Student added");
                 ("student", VObj props) ]) /\
    (writable (fs w) = true ->
     db_file (fs (snd (post_students body w))) =
     Some (Json (VArr (map json_elem records ++ [VObj props])))).
Proof.
  intros Hall Hnone Hload.
  rewrite loadStudents_fst in Hload. injection Hload as Hstored.
  destruct (supplies_all body Hall)
    as (name & rollNo & universityId & bloodGroup & address & year & department
        & Hname & HrollNo & Huid & Hblood & Haddress & Hyear & Hdept
        & Tname & TrollNo & Tuid & Tyear & Tdept).
  rewrite Hnone in Hblood. injection Hblood as <-.
  assert (Hsent : exists props,
             sent (clock w, body) = VObj props /\
             own "bloodGroup" props = None /\
             exists a, own "address" props = Some a).
  { unfold sent, built, read. cbn [fst snd].
    rewrite Hname, HrollNo, Huid, Hnone, Haddress, Hyear, Hdept.
    unfold newStudent. rewrite jsonify_obj. cbn [json_props omitted].
    rewrite (truthy_kept _ Tname), (truthy_kept _ TrollNo),
      (truthy_kept _ Tuid), (truthy_kept _ Tyear), (truthy_kept _ Tdept).
    assert (Haddr : omitted (if truthy address then address else VStr "")
                    = false).
    { destruct (truthy address) eqn:Taddress;
        [ apply truthy_kept, Taddress | reflexivity ]. }
    rewrite Haddr. eexists. split; [ reflexivity | ].
    split; [ reflexivity | eexists; reflexivity ]. }
  destruct Hsent as (props & Hprops & Hblood & Haddr).
  exists props. split; [ exact Hprops | ]. split; [ exact Hblood | ].
  split; [ exact Haddr | ].
  rewrite received_creation, Hprops.
  split.
  { rewrite (post_students_built body w Hall), Hstored. reflexivity. }
  split; [ reflexivity | ].
  intros Hw.
  destruct (post_students_file body w records Hall Hstored Hw) as [_ Hfs].
  rewrite Hfs, Hprops. reflexivity.
Qed.

Lemma post_students_drops_absent_bloodGroup_witness :
  exists props,
    sent (1700000001000%Z, carol_form) = VObj props /\
    own "bloodGroup" props = None.
Proof.
  destruct (post_students_drops_absent_bloodGroup carol_form two_students
              [alice; bob] supplies_carol_form eq_refl eq_refl)
    as (props & Hsent & Hblood & _).
  exists props. split; assumption.
Defined.

(** X12.  The handlers keep the stored records complete: when the file
    shows a collection whose records all keep a truthy [name], [rollNo],
    [universityId], [year] and [department] (truthy, and not an infinity,
    which is written as [null]), it still does after [POST /students]
    with any body that has no infinity at a required field, after
    [GET /students] with any parameters, after [GET /] and after
    start-up. *)
Theorem handlers_keep_records_complete lower body searchBy query port w :
  holds_complete_records (fs w) ->
  finite_fields body ->
  holds_complete_records (fs (snd (post_students body w))) /\
  holds_complete_records (fs (snd (get_students lower searchBy query w))) /\
  holds_complete_records (fs (snd (get_root w))) /\
  holds_complete_records (fs (snd (on_listen port w))).
Proof.
  intros Hinv Hfinite. split; [ | split; [ | split ] ].
  - destruct (supplies_or_not body) as [ Hall | Hnot ];
      [ | rewrite (post_students_idle body w Hnot); exact Hinv ].
    destruct Hinv as (records & Hstored & Hcomplete).
    rewrite (post_students_built body w Hall), Hstored.
    cbn [Array_push snd fs with_line].
    assert (Hsame : fs (snd (loadStudents w)) = fs w)
      by apply loadStudents_fs.
    destruct (writable (fs w)) eqn:Hw.
    + assert (Hw1 : writable (fs (snd (loadStudents w))) = true)
        by (rewrite Hsame; exact Hw).
      destruct (saveStudents_written (records ++ [built (clock w) body]) _ Hw1)
        as [Hfs _].
      rewrite Hfs, Hsame. unfold holds_complete_records, stored.
      cbn [with_file db_file readable].
      destruct (readable (fs w)).
      * eexists. split; [ reflexivity | ].
        rewrite Forall_forall. intros x Hx. apply in_map_iff in Hx.
        destruct Hx as (record & <- & Hin). apply complete_json_elem.
        apply in_app_or in Hin. destruct Hin as [ Hin | [ <- | [] ] ].
        -- rewrite Forall_forall in Hcomplete. apply Hcomplete, Hin.
        -- apply complete_built; assumption.
      * exists []. split; [ reflexivity | apply Forall_nil ].
    + assert (Hw1 : writable (fs (snd (loadStudents w))) = false)
        by (rewrite Hsame; exact Hw).
      destruct (saveStudents_refused (records ++ [built (clock w) body]) _ Hw1)
        as [Hfs _].
      rewrite Hfs, Hsame. exists records. split; assumption.
  - rewrite get_students_eq. cbn [snd]. rewrite loadStudents_fs. exact Hinv.
  - exact Hinv.
  - destruct w as [ [ [ content | ] can_read [ | ] ] t out made ];
      try exact Hinv.
    unfold holds_complete_records, stored. cbn.
    exists []. destruct can_read; split; first [ reflexivity | apply Forall_nil ].
Qed.

Lemma alice_and_bob_complete : holds_complete_records (fs two_students).
Proof.
  exists [alice; bob]. split; [ reflexivity | ].
  repeat (apply Forall_cons;
          [ unfold complete, required;
            repeat (apply Forall_cons; [ eexists; split; reflexivity | ]);
            apply Forall_nil | ]).
  apply Forall_nil.
Qed.

Lemma carol_has_finite_fields : finite_fields carol_form.
Proof.
  intros k negative Hk. cbn in Hk.
  repeat (destruct Hk as [ <- | Hk ]; [ discriminate | ]). destruct Hk.
Qed.

Lemma handlers_keep_records_complete_witness :
  holds_complete_records (fs (snd (post_students carol_form two_students))).
Proof.
  apply (handlers_keep_records_complete ascii_toLowerCase carol_form None None
           (PORT None) two_students alice_and_bob_complete
           carol_has_finite_fields).
Defined.

(** X13.  Failing open costs the old content: when the file exists but
    cannot be read, or holds a text [JSON.parse] rejects (the empty text
    included), a valid [POST /students] that can write is answered with
    status 201 and leaves a file holding the new record alone. *)
Theorem post_students_replaces_unread_store body w content :
  Forall (supplies body) required ->
  db_file (fs w) = Some content ->
  readable (fs w) = false \/ (exists e, JSON_parse content = Throw e) ->
  writable (fs w) = true ->
  fst (post_students body w) = Return (created (built (clock w) body)) /\
  db_file (fs (snd (post_students body w))) =
  Some (Json (VArr [sent (clock w, body)])).
Proof.
  intros Hall Hfile Hunread Hw.
  assert (Hstored : stored (fs w) = VArr []).
  { unfold stored. rewrite Hfile.
    destruct Hunread as [ -> | [e He] ]; [ reflexivity | ].
    destruct content; try discriminate He; destruct (readable (fs w));
      reflexivity. }
  destruct (post_students_file body w [] Hall Hstored Hw) as [Hanswer Hfs].
  split; [ exact Hanswer | ]. rewrite Hfs. reflexivity.
Qed.

Lemma post_students_replaces_unread_store_witness :
  db_file (fs (snd (post_students carol_form corrupt_store))) =
  Some (Json (VArr [sent (1700000001000%Z, carol_form)])) /\
  db_file (fs (snd (post_students carol_form unreadable_store))) =
  Some (Json (VArr [sent (1700000001000%Z, carol_form)])).
Proof.
  split.
  - apply (post_students_replaces_unread_store carol_form corrupt_store
             Malformed supplies_carol_form eq_refl).
    + right. eexists. reflexivity.
    + reflexivity.
  - apply (post_students_replaces_unread_store carol_form unreadable_store
             (Json (VArr [alice; bob])) supplies_carol_form eq_refl).
    + left. reflexivity.
    + reflexivity.
Defined.

(** X14.  A search in a name no stored object has of its own is answered
    with the empty collection when the name is not a member of
    [Object.prototype]; when it is one (such as [constructor] or
    [toString]) and the collection is not empty, the request throws. *)
Theorem get_students_by_unknown_field lower searchBy query records w :
  fst (loadStudents w) = Return (VArr records) ->
  searching searchBy query ->
  Forall (object_without searchBy) records ->
  (mem searchBy Object_prototype = false ->
   fst (get_students lower (Some searchBy) (Some query) w) =
   Return (res_json 200 (VObj [("students", VArr [])]))) /\
  (mem searchBy Object_prototype = true -> records <> [] ->
   exists e,
     fst (get_students lower (Some searchBy) (Some query) w) = Throw e).
Proof.
  intros Hload Hsearch Hwithout.
  rewrite loadStudents_fst in Hload. injection Hload as Hstored.
  rewrite (get_students_searching lower _ _ _ _ Hstored Hsearch).
  clear Hstored. split.
  - intros Hplain.
    assert (Hloop : filter_loop (matches lower searchBy (lower query)) records
                    = Return []).
    { induction Hwithout as [ | record rest (props & -> & Hown) Hrest IH ];
        [ reflexivity | ].
      cbn [filter_loop]. unfold matches at 1. cbn [get_prop obind].
      rewrite Hown. unfold inherited. rewrite Hplain.
      cbn [truthy_property truthy obind]. rewrite IH. reflexivity. }
    rewrite Hloop. reflexivity.
  - intros Hmember Hsome.
    destruct Hwithout as [ | record rest (props & -> & Hown) Hrest ];
      [ contradiction Hsome; reflexivity | ].
    cbn [filter_loop]. unfold matches at 1. cbn [get_prop obind].
    rewrite Hown. unfold inherited. rewrite Hmember.
    cbn. eexists. reflexivity.
Qed.

Lemma get_students_by_unknown_field_witness :
  fst (get_students ascii_toLowerCase (Some "dept") (Some "math") two_students)
  = Return (res_json 200 (VObj [("students", VArr [])])) /\
  exists e,
    fst (get_students ascii_toLowerCase (Some "toString") (Some "math")
           two_students) = Throw e.
Proof.
  assert (Hdept : Forall (object_without "dept") [alice; bob]).
  { repeat (apply Forall_cons; [ eexists; split; reflexivity | ]).
    apply Forall_nil. }
  assert (HtoString : Forall (object_without "toString") [alice; bob]).
  { repeat (apply Forall_cons; [ eexists; split; reflexivity | ]).
    apply Forall_nil. }
  assert (Sdept : searching "dept" "math") by (split; discriminate).
  assert (StoString : searching "toString" "math") by (split; discriminate).
  split.
  - apply (get_students_by_unknown_field ascii_toLowerCase "dept" "math"
             [alice; bob] two_students eq_refl Sdept Hdept).
    reflexivity.
  - apply (get_students_by_unknown_field ascii_toLowerCase "toString" "math"
             [alice; bob] two_students eq_refl StoString HtoString).
    + reflexivity.
    + discriminate.
Defined.

(** X15.  A creation whose write is refused is lost without notice: the
    request is answered with status 201, and every [GET /students]
    afterwards answers what it answered before the request. *)
Theorem post_students_lost_when_write_refused lower body w records :
  Forall (supplies body) required ->
  fst (loadStudents w) = Return (VArr records) ->
  writable (fs w) = false ->
  fst (post_students body w) = Return (created (built (clock w) body)) /\
  forall searchBy query,
    fst (get_students lower searchBy query (snd (post_students body w))) =
    fst (get_students lower searchBy query w).
Proof.
  intros Hall Hload Hw.
  rewrite loadStudents_fst in Hload. injection Hload as Hstored.
  rewrite (post_students_built body w Hall), Hstored.
  cbn [Array_push fst snd]. split; [ reflexivity | ].
  intros searchBy query. rewrite !get_students_eq. cbn [fst fs with_line].
  assert (Hw1 : writable (fs (snd (loadStudents w))) = false)
    by (rewrite loadStudents_fs; exact Hw).
  destruct (saveStudents_refused (records ++ [built (clock w) body]) _ Hw1)
    as [Hfs _].
  rewrite Hfs, loadStudents_fs. reflexivity.
Qed.

Lemma post_students_lost_when_write_refused_witness :
  fst (post_students carol_form read_only_store) =
  Return (created (built 1700000001000%Z carol_form)) /\
  fst (get_students ascii_toLowerCase None None
         (snd (post_students carol_form read_only_store))) =
  fst (get_students ascii_toLowerCase None None read_only_store).
Proof.
  destruct (post_students_lost_when_write_refused ascii_toLowerCase carol_form
              read_only_store [alice; bob] supplies_carol_form eq_refl eq_refl)
    as [Hanswer Hsame].
  split; [ exact Hanswer | apply Hsame ].
Defined.

(** X16.  An infinity passes the validation and is stored as [null]: when
    a valid body has an infinity at a required field (a number such as
    [1e400]), the request is answered with status 201, and the record the
    client receives, which is the last one of the file afterwards, has
    [null] at that field: a stored record that lacks a required field. *)
Theorem post_students_stores_infinity_as_null body w records k negative :
  Forall (supplies body) required ->
  In k required ->
  field body k = Return (VOther (Infinity negative)) ->
  fst (loadStudents w) = Return (VArr records) ->
  readable (fs w) = true ->
  writable (fs w) = true ->
  fst (post_students body w) = Return (created (built (clock w) body)) /\
  field (sent (clock w, body)) k = Return VNull /\
  lacks (sent (clock w, body)) k /\
  fst (loadStudents (snd (post_students body w))) =
  Return (VArr (map json_elem records ++ [sent (clock w, body)])).
Proof.
  intros Hall Hk Hinf Hload Hread Hwrite.
  rewrite loadStudents_fst in Hload. injection Hload as Hstored.
  destruct (post_students_file body w records Hall Hstored Hwrite)
    as [Hanswer Hfs].
  assert (Hsent : field (sent (clock w, body)) k = Return VNull).
  { pose proof (field_built (clock w) body k Hk) as Hbuilt.
    unfold read in Hbuilt. rewrite Hinf in Hbuilt.
    unfold sent. cbn [fst snd]. unfold built in *. unfold newStudent in *.
    assert (Hseven : In k [ "name"; "rollNo"; "universityId"; "bloodGroup";
                            "address"; "year"; "department" ])
      by (cbn in Hk; cbn; intuition).
    rewrite field_own in Hbuilt by exact Hseven.
    rewrite jsonify_obj, field_own by exact Hseven.
    match type of Hbuilt with
    | Return (match own k ?ps with _ => _ end) = _ =>
        destruct (own k ps) as [ v | ] eqn:Hown;
        [ injection Hbuilt as ->;
          rewrite (own_json_props _ _ _ Hown eq_refl); reflexivity
        | discriminate Hbuilt ]
    end. }
  split; [ exact Hanswer | ]. split; [ exact Hsent | ].
  split; [ exists VNull; split; [ exact Hsent | reflexivity ] | ].
  rewrite loadStudents_fst, Hfs. rewrite (stored_with_file _ _ Hread).
  reflexivity.
Qed.

Lemma supplies_endless_year : Forall (supplies endless_year_form) required.
Proof.
  unfold required.
  repeat (apply Forall_cons; [ eexists; split; reflexivity | ]).
  apply Forall_nil.
Qed.

Lemma post_students_stores_infinity_as_null_witness :
  fst (post_students endless_year_form two_students) =
  Return (created (built 1700000001000%Z endless_year_form)) /\
  field (sent (1700000001000%Z, endless_year_form)) "year" = Return VNull.
Proof.
  destruct (post_students_stores_infinity_as_null endless_year_form
              two_students [alice; bob] "year" false supplies_endless_year)
    as (Hanswer & Hnull & _); try reflexivity.
  - cbn. tauto.
  - split; assumption.
Defined.

End Further.
